(** * Exchange_Rates: per-currency statistics over the daily rate feed

    A shallow embedding of [main.go]: the feed records ([ValCurs],
    [Valute]), the per-currency summary ([CurrencyStats]), the table
    [globalStats], the loop of [analyzeData] and the closing loop of
    [main] that computes the averages and prints one line per currency.

    - [float64] values are IEEE 754 binary64 numbers, given by the
      standard library's executable specification ([spec_float] at
      precision 53 and maximal exponent 1024); [+], [/], [<] and [>] of
      the program are [SFadd], [SFdiv] and [SFltb].
    - [int] is the 64-bit two's complement integer of the usual targets,
      kept in [Z] with the wrap-around of [++] written out.
    - [globalStats], a [map[string]*CurrencyStats], is a finite map from
      strings to records; every key owns its own record, so updating
      through the pointer is updating the entry.
    - what the program prints is collected as a list of events.

    The file holds the program twice; the embedding follows the first
    copy, which keeps more of a currency, and relates the second to
    it ([SecondCopy], [forget]). *)

From Stdlib Require Import ZArith Ascii String List Bool Lia Permutation.
From Stdlib Require Import Floats.SpecFloat.
From stdpp Require Import base option list gmap strings.

Local Open Scope string_scope.
Local Open Scope Z_scope.

(** ** float64 *)

Abbreviation float64 := spec_float.

Module Float64.

Definition prec : Z := 53.
Definition emax : Z := 1024.

Definition add : float64 -> float64 -> float64 := SFadd prec emax.
Definition div : float64 -> float64 -> float64 := SFdiv prec emax.
(** [ltb x y] is Go's [x < y]; Go's [x > y] is [ltb y x]. *)
Definition ltb : float64 -> float64 -> bool := SFltb.
Definition leb : float64 -> float64 -> bool := SFleb.
Definition eqb : float64 -> float64 -> bool := SFeqb.

Definition zero : float64 := S754_zero false.
Definition NaN : float64 := S754_nan.
(** [math.Inf(sign)]: negative infinity exactly when [sign < 0]. *)
Definition Inf (sign : Z) : float64 := S754_infinity (sign <? 0).

Definition is_nan (x : float64) : bool :=
  match x with S754_nan => true | _ => false end.

(** The conversion [float64(n)] of an integer: the nearest binary64
    number, ties to even. *)
Definition of_int (n : Z) : float64 := binary_normalize prec emax n 0 false.

(** The binary64 number nearest to [m * 2^e], for [m > 0]. *)
Definition of_binary (neg : bool) (m : positive) (e : Z) : float64 :=
  binary_round prec emax neg m e.

(** The binary64 number nearest to [m * 10^e], for [m > 0]: an exact
    integer when [e >= 0], else the quotient of two integers rounded
    once, with the location of the remainder. *)
Definition of_decimal (neg : bool) (m : positive) (e : Z) : float64 :=
  if 0 <=? e then
    match Zpos m * 10 ^ e with
    | Zpos n => binary_round prec emax neg n 0
    | _ => S754_zero neg
    end
  else
    let '(q, e', l) := SFdiv_core_binary prec emax (Zpos m) 0 (10 ^ (- e)) 0 in
    binary_round_aux prec emax neg q e' l.

End Float64.

(** ** int *)

Module Int.

Definition bits : Z := 64.
Definition min_int : Z := - 2 ^ (bits - 1).
Definition max_int : Z := 2 ^ (bits - 1) - 1.

(** The value an exact result takes once stored in an [int]. *)
Definition wrap (n : Z) : Z := (n - min_int) mod 2 ^ bits + min_int.

Definition add (a b : Z) : Z := wrap (a + b).
(** [n++] *)
Definition incr (n : Z) : Z := add n 1.

End Int.

(** ** strings and strconv

    The two library calls of [analyzeData].  Go strings are byte
    strings, as [string] is here; a byte is read as its code in [Z]. *)

Module strings.

(** [strings.Replace(s, old, new, n)] for a one-byte [old] and a
    one-byte [new], as the program calls it: the first [n] occurrences
    of [old] are replaced, all of them when [n < 0]. *)
Fixpoint Replace (s : string) (old new : ascii) (n : Z) : string :=
  match s with
  | EmptyString => EmptyString
  | String c s' =>
      if Ascii.eqb c old && negb (n =? 0)
      then String new (Replace s' old new (if n <? 0 then n else n - 1))
      else String c (Replace s' old new n)
  end.

(** Number of occurrences of the byte [c] in [s]. *)
Fixpoint Count (s : string) (c : ascii) : nat :=
  match s with
  | EmptyString => O
  | String d s' => ((if Ascii.eqb d c then 1 else 0) + Count s' c)%nat
  end.

End strings.

Module strconv.

Definition byte (c : ascii) : Z := Z.of_N (N_of_ascii c).

(** [lower(c)] is [c | ('x' - 'X')]: the lower-case letter for the
    ASCII letters, whatever else for the other bytes. *)
Definition lower (c : ascii) : Z := Z.lor (byte c) 32.

Definition is_digit (c : ascii) : bool := (48 <=? byte c) && (byte c <=? 57).
Definition is_hex_letter (c : ascii) : bool :=
  (97 <=? lower c) && (lower c <=? 102).
Definition is_upper (c : ascii) : bool := (65 <=? byte c) && (byte c <=? 90).

(** [commonPrefixLenIgnoreCase(s, prefix)], [prefix] in lower case. *)
Fixpoint commonPrefixLenIgnoreCase (s prefix : string) : nat :=
  match s, prefix with
  | String c s', String p prefix' =>
      let c' := if is_upper c then byte c + 32 else byte c in
      if c' =? byte p then S (commonPrefixLenIgnoreCase s' prefix') else O
  | _, _ => O
  end.

(** The [i], [I] case of [special], which the sign case falls into. *)
Definition special_inf (s : string) (sign : Z) (nsign : nat)
  : option (float64 * nat) :=
  let n := commonPrefixLenIgnoreCase s "infinity" in
  let n := if (3 <? n)%nat && (n <? 8)%nat then 3%nat else n in
  if (n =? 3)%nat || (n =? 8)%nat
  then Some (Float64.Inf sign, (nsign + n)%nat)
  else None.

(** [special]: the value and the number of bytes read when [s] starts
    with an optionally signed infinity or with a NaN. *)
Definition special (s : string) : option (float64 * nat) :=
  match s with
  | EmptyString => None
  | String c s' =>
      if (byte c =? 43) || (byte c =? 45) then
        special_inf s' (if byte c =? 45 then -1 else 1) 1
      else if (byte c =? 105) || (byte c =? 73) then
        special_inf s 1 0
      else if (byte c =? 110) || (byte c =? 78) then
        if (commonPrefixLenIgnoreCase s "nan" =? 3)%nat
        then Some (Float64.NaN, 3%nat) else None
      else None
  end.

(** What the digit loop of [readFloat] keeps.  [mantissa] holds every
    digit read after the leading zeros, where the library keeps the
    first 19 (16 in base 16) and remembers in [trunc] that a later one
    was not zero: it returns to the whole literal when those digits do
    not decide the rounding, so that the value it gives is the number
    nearest to the literal as written. *)
Record digits := Digits {
  sawdot : bool;
  sawdigits : bool;
  nd : Z;
  dp : Z;
  mantissa : Z;
  underscores : bool
}.

Definition digits0 : digits :=
  {| sawdot := false; sawdigits := false; nd := 0; dp := 0; mantissa := 0;
     underscores := false |}.

(** The digit loop: underscores are passed over and checked afterwards,
    a second period ends the loop, leading zeros only move the point.
    The result is the state and the text the loop stopped at. *)
Fixpoint read_digits (base : Z) (st : digits) (s : string) : digits * string :=
  match s with
  | EmptyString => (st, s)
  | String c s' =>
      if byte c =? 95 then
        read_digits base
          {| sawdot := sawdot st; sawdigits := sawdigits st; nd := nd st;
             dp := dp st; mantissa := mantissa st; underscores := true |} s'
      else if byte c =? 46 then
        if sawdot st then (st, s)
        else
          read_digits base
            {| sawdot := true; sawdigits := sawdigits st; nd := nd st;
               dp := nd st; mantissa := mantissa st;
               underscores := underscores st |} s'
      else if is_digit c then
        if (byte c =? 48) && (nd st =? 0) then
          read_digits base
            {| sawdot := sawdot st; sawdigits := true; nd := nd st;
               dp := dp st - 1; mantissa := mantissa st;
               underscores := underscores st |} s'
        else
          read_digits base
            {| sawdot := sawdot st; sawdigits := true; nd := nd st + 1;
               dp := dp st; mantissa := mantissa st * base + (byte c - 48);
               underscores := underscores st |} s'
      else if (base =? 16) && is_hex_letter c then
        read_digits base
          {| sawdot := sawdot st; sawdigits := true; nd := nd st + 1;
             dp := dp st; mantissa := mantissa st * 16 + (lower c - 97 + 10);
             underscores := underscores st |} s'
      else (st, s)
  end.

(** The digits of the exponent: [e] stops growing at 10000, underscores
    are noted.  The result is [e], whether an underscore was met, and
    the text the loop stopped at. *)
Fixpoint read_exponent (e : Z) (us : bool) (s : string) : Z * bool * string :=
  match s with
  | EmptyString => (e, us, s)
  | String c s' =>
      if byte c =? 95 then read_exponent e true s'
      else if is_digit c then
        read_exponent (if e <? 10000 then e * 10 + (byte c - 48) else e) us s'
      else (e, us, s)
  end.

(** [underscoreOK]: an underscore stands only between digits, or
    between the base prefix and a digit.  [saw] is the last byte seen:
    [true, _] for a digit or the prefix, [_, true] for an underscore. *)
Fixpoint underscore_proper (hex : bool) (saw0 saw_ : bool) (s : string) : bool :=
  match s with
  | EmptyString => negb saw_
  | String c s' =>
      if is_digit c || (hex && is_hex_letter c) then
        underscore_proper hex true false s'
      else if byte c =? 95 then
        if saw0 then underscore_proper hex false true s' else false
      else if saw_ then false
      else underscore_proper hex false false s'
  end.

Definition drop_sign (s : string) : string :=
  match s with
  | String c s' => if (byte c =? 45) || (byte c =? 43) then s' else s
  | EmptyString => s
  end.

Definition underscoreOK (s : string) : bool :=
  match drop_sign s with
  | String c0 (String c1 s') =>
      if (byte c0 =? 48)
         && ((lower c1 =? 98) || (lower c1 =? 111) || (lower c1 =? 120))
      then underscore_proper (lower c1 =? 120) true false s'
      else underscore_proper false false false (drop_sign s)
  | s0 => underscore_proper false false false s0
  end.

(** What [readFloat] returns when it succeeds: the sign, the base, the
    mantissa with its exponent ([mantissa * 10^exp], or
    [mantissa * 2^exp] for a hexadecimal literal) and the text left
    unread. *)
Record number := Number {
  neg : bool;
  hex : bool;
  mant : Z;
  exp : Z;
  rest : string
}.

(** The part of [s] that was read, given the part that was not. *)
Definition read_part (s unread : string) : string :=
  substring 0 (String.length s - String.length unread) s.

(** The end of [readFloat]: the exponent of the mantissa from the
    place of the point, then the underscores of what was read.  [all]
    is the whole literal, [unread] what is left of it. *)
Definition finish_number (all : string) (neg hex : bool) (st : digits)
  (dp : Z) (us : bool) (unread : string) : option number :=
  let ndMant := if hex then nd st * 4 else nd st in
  if us && negb (underscoreOK (read_part all unread)) then None
  else Some {| neg := neg; hex := hex; mant := mantissa st;
               exp := if mantissa st =? 0 then 0 else dp - ndMant;
               rest := unread |}.

(** The optional exponent of [readFloat], from the exponent letter on:
    a sign, a digit at least, and digits; a hexadecimal mantissa must
    have it. *)
Definition read_tail (all : string) (neg hex : bool) (st : digits) (s : string)
  : option number :=
  let dp := if sawdot st then dp st else nd st in
  let dp := if hex then dp * 4 else dp in
  let plain :=
    if hex then None else finish_number all neg hex st dp (underscores st) s in
  match s with
  | String c s1 =>
      if lower c =? (if hex then 112 else 101) then
        match s1 with
        | EmptyString => None
        | String c1 s2 =>
            let esign := if byte c1 =? 45 then -1 else 1 in
            let s3 := if (byte c1 =? 43) || (byte c1 =? 45) then s2 else s1 in
            match s3 with
            | EmptyString => None
            | String c3 _ =>
                if is_digit c3 then
                  let '(e, us, unread) := read_exponent 0 (underscores st) s3 in
                  finish_number all neg hex st (dp + e * esign) us unread
                else None
            end
        end
      else plain
  | EmptyString => plain
  end.

(** [readFloat]: sign, base prefix, digits, exponent. *)
Definition readFloat (s : string) : option number :=
  match s with
  | EmptyString => None
  | String c s' =>
      let neg := byte c =? 45 in
      let s1 := if (byte c =? 43) || (byte c =? 45) then s' else s in
      let hex :=
        match s1 with
        | String c0 (String c1 (String _ _)) =>
            (byte c0 =? 48) && (lower c1 =? 120)
        | _ => false
        end in
      let s2 :=
        match s1 with
        | String _ (String _ s2) => if hex then s2 else s1
        | _ => s1
        end in
      let '(st, s3) := read_digits (if hex then 16 else 10) digits0 s2 in
      if sawdigits st then read_tail s neg hex st s3 else None
  end.

(** The value of a literal that [readFloat] accepted, and whether it
    is out of range ([ErrRange]): the binary64 number nearest to it,
    ties to even, an infinity when it exceeds the largest one. *)
Definition float_of_number (n : number) : float64 :=
  match mant n with
  | Zpos m =>
      if hex n then Float64.of_binary (neg n) m (exp n)
      else Float64.of_decimal (neg n) m (exp n)
  | _ => S754_zero (neg n)
  end.

Definition out_of_range (f : float64) : bool :=
  match f with S754_infinity _ => true | _ => false end.

(** [strconv.ParseFloat(s, 64)]: [None] when the error is not [nil],
    that is when [s] is not a literal in full (a syntax error) or when
    its value is out of range. *)
Definition ParseFloat (s : string) : option float64 :=
  match special s with
  | Some (f, n) => if (n =? String.length s)%nat then Some f else None
  | None =>
      match readFloat s with
      | Some n =>
          match rest n with
          | EmptyString =>
              let f := float_of_number n in
              if out_of_range f then None else Some f
          | String _ _ => None
          end
      | None => None
      end
  end.

End strconv.

(** ** The feed *)

Module Valute.

(** One currency of one day's document. *)
Record Valute := {
  ID : string;
  NumCode : string;
  CharCode : string;
  Nominal : Z;
  Name : string;
  Value : string
}.

End Valute.

Abbreviation Valute := Valute.Valute.

(** One day's document; [XMLName], the name of the root element, plays
    no part. *)
Record ValCurs := {
  Date : string;
  Valutes : list Valute
}.

(** ** The statistics *)

Record CurrencyStats := {
  MaxValue : float64;
  MinValue : float64;
  MaxDate : string;
  MinDate : string;
  TotalValue : float64;
  Count : Z;
  Average : float64;
  Nominal : Z;
  CurrencyName : string;
  NumCode : string;
  CharCode : string
}.

(** What the program writes to its standard output, line by line. *)
Inductive event :=
| ConvertError (charCode valueStr : string)
| FetchError (err : string)
| XMLError (dateStr err : string)
| StatsLine (currencyName charCode numCode : string) (nominal : Z)
    (maxValue : float64) (maxDate : string)
    (minValue : float64) (minDate : string) (average : float64).

(** The state of a run: the table [globalStats] and the output so far. *)
Record world := {
  globalStats : gmap string CurrencyStats;
  stdout : list event
}.

Definition world0 : world := {| globalStats := ∅; stdout := [] |}.

(** The composite literal of the first observation of a currency;
    [Average] is left at the zero value. *)
Definition new_stats (date : string) (valute : Valute) (value : float64)
  : CurrencyStats :=
  {| MaxValue := value;
     MinValue := value;
     MaxDate := date;
     MinDate := date;
     TotalValue := value;
     Count := 1;
     Average := Float64.zero;
     Nominal := Valute.Nominal valute;
     CurrencyName := Valute.Name valute;
     NumCode := Valute.NumCode valute;
     CharCode := Valute.CharCode valute |}.

(** The [else] branch: the sum, the count, then the two strict tests.
    The tests read and write different fields, so their order is
    immaterial. *)
Definition update_stats (date : string) (value : float64)
  (stats : CurrencyStats) : CurrencyStats :=
  let newmax := Float64.ltb (MaxValue stats) value in
  let newmin := Float64.ltb value (MinValue stats) in
  {| MaxValue := if newmax then value else MaxValue stats;
     MinValue := if newmin then value else MinValue stats;
     MaxDate := if newmax then date else MaxDate stats;
     MinDate := if newmin then date else MinDate stats;
     TotalValue := Float64.add (TotalValue stats) value;
     Count := Int.incr (Count stats);
     Average := Average stats;
     Nominal := Nominal stats;
     CurrencyName := CurrencyName stats;
     NumCode := NumCode stats;
     CharCode := CharCode stats |}.

(** The closing loop of [main], for one entry. *)
Definition set_average (stats : CurrencyStats) : CurrencyStats :=
  {| MaxValue := MaxValue stats;
     MinValue := MinValue stats;
     MaxDate := MaxDate stats;
     MinDate := MinDate stats;
     TotalValue := TotalValue stats;
     Count := Count stats;
     Average := Float64.div (TotalValue stats) (Float64.of_int (Count stats));
     Nominal := Nominal stats;
     CurrencyName := CurrencyName stats;
     NumCode := NumCode stats;
     CharCode := CharCode stats |}.

Definition stats_line (stats : CurrencyStats) : event :=
  StatsLine (CurrencyName stats) (CharCode stats) (NumCode stats)
    (Nominal stats) (MaxValue stats) (MaxDate stats)
    (MinValue stats) (MinDate stats) (Average stats).

(** The text handed to the parser: every comma becomes a period. *)
Definition valueStr (valute : Valute) : string :=
  strings.Replace (Valute.Value valute) ","%char "."%char (-1).

(** A byte that stands in no literal of the parser and is no comma:
    neither a digit nor an ASCII letter nor one of [+ - . _ ,].  A
    space is one, and a line feed. *)
Definition foreign (c : ascii) : bool :=
  let b := strconv.byte c in
  negb (((48 <=? b) && (b <=? 57)) || ((65 <=? b) && (b <=? 90))
        || ((97 <=? b) && (b <=? 122))
        || (b =? 43) || (b =? 45) || (b =? 46) || (b =? 95) || (b =? 44)).

Fixpoint has_foreign (s : string) : bool :=
  match s with
  | EmptyString => false
  | String c s' => foreign c || has_foreign s'
  end.

(** What one day brought: the fetch failed, the document did not
    parse, or it did.  The texts of a failed day are those the copy
    of the program at hand prints: [dateStr] is the day in the layout
    of that copy, [err] the error of its own request. *)
Inductive day :=
| FetchFailed (err : string)
| ParseFailed (dateStr err : string)
| Fetched (valCurs : ValCurs).

Section Aggregator.

(** [strconv.ParseFloat(s, 64)], [None] for an error that is not
    [nil].  The aggregation is stated for any such function; the runs
    below take [strconv.ParseFloat]. *)
Variable ParseFloat : string -> option float64.

(** The body of the loop of [analyzeData], for one [valute] of a
    document dated [date]. *)
Definition analyzeValute (date : string) (valute : Valute) (w : world) : world :=
  match ParseFloat (valueStr valute) with
  | None =>
      {| globalStats := globalStats w;
         stdout := stdout w
                   ++ [ConvertError (Valute.CharCode valute) (valueStr valute)] |}
  | Some value =>
      match globalStats w !! Valute.CharCode valute with
      | None =>
          {| globalStats :=
               <[Valute.CharCode valute := new_stats date valute value]>
                 (globalStats w);
             stdout := stdout w |}
      | Some stats =>
          {| globalStats :=
               <[Valute.CharCode valute := update_stats date value stats]>
                 (globalStats w);
             stdout := stdout w |}
      end
  end.

Definition analyzeData (valCurs : ValCurs) (w : world) : world :=
  fold_left (fun w valute => analyzeValute (Date valCurs) valute w)
    (Valutes valCurs) w.

(** One turn of the loop over the days. *)
Definition main_day (d : day) (w : world) : world :=
  match d with
  | FetchFailed err =>
      {| globalStats := globalStats w; stdout := stdout w ++ [FetchError err] |}
  | ParseFailed dateStr err =>
      {| globalStats := globalStats w;
         stdout := stdout w ++ [XMLError dateStr err] |}
  | Fetched valCurs => analyzeData valCurs w
  end.

(** The closing loop of [main] over the table: every entry gets its
    average. *)
Definition finalize (m : gmap string CurrencyStats) : gmap string CurrencyStats :=
  set_average <$> m.

(** The lines of the closing loop.  Go leaves the order of a [range]
    over a map open; the lines come here in the order of
    [map_to_list]. *)
Definition report (m : gmap string CurrencyStats) : list event :=
  (fun kv => stats_line (snd kv)) <$> map_to_list (finalize m).

Definition main (days : list day) : world :=
  let w := fold_left (fun w d => main_day d w) days world0 in
  {| globalStats := finalize (globalStats w);
     stdout := stdout w ++ report (globalStats w) |}.

(** *** The run as one sequence of dated records *)

(** The records of a list of documents, each with the date of its
    document, in the order [analyzeData] meets them. *)
Definition records (docs : list ValCurs) : list (string * Valute) :=
  docs ≫= (fun valCurs => (fun v => (Date valCurs, v)) <$> Valutes valCurs).

Definition fold_records (rs : list (string * Valute)) (w : world) : world :=
  fold_left (fun w r => analyzeValute (fst r) (snd r) w) rs w.

Definition run (docs : list ValCurs) (w : world) : world :=
  fold_left (fun w valCurs => analyzeData valCurs w) docs w.

(** The value a record is folded with, if any. *)
Definition parsed (r : string * Valute) : option float64 :=
  ParseFloat (valueStr (snd r)).

Definition parseable (r : string * Valute) : bool :=
  match parsed r with Some _ => true | None => false end.

Definition of_currency (c : string) (r : string * Valute) : bool :=
  bool_decide (Valute.CharCode (snd r) = c).

(** The records of the currency [c] that are folded, in order. *)
Definition observations (c : string) (rs : list (string * Valute))
  : list (string * Valute) :=
  List.filter (fun r => of_currency c r && parseable r) rs.

(** What a sequence of records does to the entry of one currency,
    taken alone. *)
Definition fold_entry (o : option CurrencyStats) (r : string * Valute)
  : option CurrencyStats :=
  match parsed r with
  | None => o
  | Some value =>
      match o with
      | None => Some (new_stats (fst r) (snd r) value)
      | Some stats => Some (update_stats (fst r) value stats)
      end
  end.

(** The count of an entry, 0 when there is none. *)
Definition entry_count (o : option CurrencyStats) : Z :=
  match o with Some stats => Count stats | None => 0 end.

End Aggregator.

(** ** The second copy of the program

    [main.go] holds the program twice.  The second copy (from line 160
    on) differs from the first in what it keeps of a currency: its
    [CurrencyStats] has neither [Nominal] nor [NumCode] nor [CharCode],
    and the line it prints has the name, the extremes with their dates
    and the average.  The parsing, the table and the two loops are the
    same. *)

Module SecondCopy.

Record CurrencyStats := {
  MaxValue : float64;
  MinValue : float64;
  MaxDate : string;
  MinDate : string;
  TotalValue : float64;
  Count : Z;
  Average : float64;
  CurrencyName : string
}.

Inductive event :=
| ConvertError (charCode valueStr : string)
| FetchError (err : string)
| XMLError (dateStr err : string)
| StatsLine (currencyName : string)
    (maxValue : float64) (maxDate : string)
    (minValue : float64) (minDate : string) (average : float64).

Record world := {
  globalStats : gmap string CurrencyStats;
  stdout : list event
}.

Definition new_stats (date : string) (valute : Valute) (value : float64)
  : CurrencyStats :=
  {| MaxValue := value;
     MinValue := value;
     MaxDate := date;
     MinDate := date;
     TotalValue := value;
     Count := 1;
     Average := Float64.zero;
     CurrencyName := Valute.Name valute |}.

Definition update_stats (date : string) (value : float64)
  (stats : CurrencyStats) : CurrencyStats :=
  let newmax := Float64.ltb (MaxValue stats) value in
  let newmin := Float64.ltb value (MinValue stats) in
  {| MaxValue := if newmax then value else MaxValue stats;
     MinValue := if newmin then value else MinValue stats;
     MaxDate := if newmax then date else MaxDate stats;
     MinDate := if newmin then date else MinDate stats;
     TotalValue := Float64.add (TotalValue stats) value;
     Count := Int.incr (Count stats);
     Average := Average stats;
     CurrencyName := CurrencyName stats |}.

Definition set_average (stats : CurrencyStats) : CurrencyStats :=
  {| MaxValue := MaxValue stats;
     MinValue := MinValue stats;
     MaxDate := MaxDate stats;
     MinDate := MinDate stats;
     TotalValue := TotalValue stats;
     Count := Count stats;
     Average := Float64.div (TotalValue stats) (Float64.of_int (Count stats));
     CurrencyName := CurrencyName stats |}.

Definition stats_line (stats : CurrencyStats) : event :=
  StatsLine (CurrencyName stats) (MaxValue stats) (MaxDate stats)
    (MinValue stats) (MinDate stats) (Average stats).

Definition analyzeValute (ParseFloat : string -> option float64)
  (date : string) (valute : Valute) (w : world) : world :=
  match ParseFloat (valueStr valute) with
  | None =>
      {| globalStats := globalStats w;
         stdout := stdout w
                   ++ [ConvertError (Valute.CharCode valute) (valueStr valute)] |}
  | Some value =>
      match globalStats w !! Valute.CharCode valute with
      | None =>
          {| globalStats :=
               <[Valute.CharCode valute := new_stats date valute value]>
                 (globalStats w);
             stdout := stdout w |}
      | Some stats =>
          {| globalStats :=
               <[Valute.CharCode valute := update_stats date value stats]>
                 (globalStats w);
             stdout := stdout w |}
      end
  end.

Definition analyzeData (ParseFloat : string -> option float64)
  (valCurs : ValCurs) (w : world) : world :=
  fold_left (fun w valute => analyzeValute ParseFloat (Date valCurs) valute w)
    (Valutes valCurs) w.

Definition finalize (m : gmap string CurrencyStats) : gmap string CurrencyStats :=
  set_average <$> m.

End SecondCopy.

(** What the second copy keeps of an aggregate, of a line and of a
    state of the first. *)
Definition forget (stats : CurrencyStats) : SecondCopy.CurrencyStats :=
  {| SecondCopy.MaxValue := MaxValue stats;
     SecondCopy.MinValue := MinValue stats;
     SecondCopy.MaxDate := MaxDate stats;
     SecondCopy.MinDate := MinDate stats;
     SecondCopy.TotalValue := TotalValue stats;
     SecondCopy.Count := Count stats;
     SecondCopy.Average := Average stats;
     SecondCopy.CurrencyName := CurrencyName stats |}.

Definition forget_event (e : event) : SecondCopy.event :=
  match e with
  | ConvertError charCode valueStr => SecondCopy.ConvertError charCode valueStr
  | FetchError err => SecondCopy.FetchError err
  | XMLError dateStr err => SecondCopy.XMLError dateStr err
  | StatsLine name _ _ _ maxValue maxDate minValue minDate average =>
      SecondCopy.StatsLine name maxValue maxDate minValue minDate average
  end.

Definition forget_world (w : world) : SecondCopy.world :=
  {| SecondCopy.globalStats := forget <$> globalStats w;
     SecondCopy.stdout := forget_event <$> stdout w |}.

(** The loop over the days and the closing loop of the second copy;
    its counter [totalDays] is written and never read. *)
Definition second_copy_main_day (ParseFloat : string -> option float64)
  (d : day) (w : SecondCopy.world) : SecondCopy.world :=
  match d with
  | FetchFailed err =>
      {| SecondCopy.globalStats := SecondCopy.globalStats w;
         SecondCopy.stdout := SecondCopy.stdout w ++ [SecondCopy.FetchError err] |}
  | ParseFailed dateStr err =>
      {| SecondCopy.globalStats := SecondCopy.globalStats w;
         SecondCopy.stdout :=
           SecondCopy.stdout w ++ [SecondCopy.XMLError dateStr err] |}
  | Fetched valCurs => SecondCopy.analyzeData ParseFloat valCurs w
  end.

Definition second_copy_loop (ParseFloat : string -> option float64)
  (days : list day) (w : SecondCopy.world) : SecondCopy.world :=
  fold_left (fun w d => second_copy_main_day ParseFloat d w) days w.

Definition second_copy_report (m : gmap string SecondCopy.CurrencyStats)
  : list SecondCopy.event :=
  (fun kv => SecondCopy.stats_line (snd kv))
    <$> map_to_list (SecondCopy.finalize m).

Definition second_copy_main (ParseFloat : string -> option float64)
  (days : list day) : SecondCopy.world :=
  let w :=
    second_copy_loop ParseFloat days
      {| SecondCopy.globalStats := ∅; SecondCopy.stdout := [] |} in
  {| SecondCopy.globalStats := SecondCopy.finalize (SecondCopy.globalStats w);
     SecondCopy.stdout :=
       SecondCopy.stdout w ++ second_copy_report (SecondCopy.globalStats w) |}.

Definition second_copy_world0 : SecondCopy.world :=
  {| SecondCopy.globalStats := ∅; SecondCopy.stdout := [] |}.


(** Whether a line is the line of a record that does not parse. *)
Definition is_convert_error (e : event) : bool :=
  match e with ConvertError _ _ => true | _ => false end.

Definition second_copy_is_convert_error (e : SecondCopy.event) : bool :=
  match e with SecondCopy.ConvertError _ _ => true | _ => false end.

(** ** Views of a run

    What the statements below say of a run: the values folded for a
    currency, the lines of the records that were skipped, the
    documents among the days. *)

Section Views.

Variable ParseFloat : string -> option float64.

(** The values folded for the currency [c], in order. *)
Definition values (c : string) (rs : list (string * Valute)) : list float64 :=
  omap (parsed ParseFloat) (observations ParseFloat c rs).

(** The line of a record that does not parse. *)
Definition convert_error (r : string * Valute) : event :=
  ConvertError (Valute.CharCode (snd r)) (valueStr (snd r)).

(** The lines of the records that do not parse, in order. *)
Definition convert_errors (rs : list (string * Valute)) : list event :=
  convert_error <$> List.filter (fun r => negb (parseable ParseFloat r)) rs.

(** The loop of [main] over the days, before the closing loop. *)
Definition main_loop (days : list day) (w : world) : world :=
  fold_left (fun w d => main_day ParseFloat d w) days w.

(** The documents among the days. *)
Definition fetched (days : list day) : list ValCurs :=
  omap (fun d => match d with Fetched valCurs => Some valCurs | _ => None end)
    days.

(** The lines the loop of [main] prints for a day. *)
Definition day_lines (d : day) : list event :=
  match d with
  | FetchFailed err => [FetchError err]
  | ParseFailed dateStr err => [XMLError dateStr err]
  | Fetched valCurs =>
      convert_errors ((fun v => (Date valCurs, v)) <$> Valutes valCurs)
  end.

(** Whether a line is one of the closing loop. *)
Definition is_stats_line (e : event) : bool :=
  match e with StatsLine _ _ _ _ _ _ _ _ _ => true | _ => false end.

End Views.

(** ** The date of the request

    [main] asks for the day [d] under the text [d.Format(layout)], put
    after [date_req=] by [fmt.Sprintf].  [Format] reads the layout
    chunk by chunk ([nextStdChunk] of the library): the digits of the
    reference time 01/02 03:04:05 2006 stand for the fields of [d],
    every other byte for itself. *)

Module time.

(** What [Format] reads of a [time.Time]: its date and its clock, in
    its location. *)
Record Time := {
  Year : Z;
  Month : Z;
  Day : Z;
  Hour : Z;
  Minute : Z;
  Second : Z;
  YearDay : Z
}.

Fixpoint zeros (n : nat) : string :=
  match n with
  | O => ""
  | S n' => String "0"%char (zeros n')
  end.

(** A decimal digit. *)
Definition digit (d : Z) : ascii := ascii_of_N (Z.to_N (48 + d)).

(** The decimal digits of [u >= 0], put before [acc] from the last to
    the first: the loop of [appendInt], which divides by ten until one
    digit is left.  An unsigned integer has twenty digits at most. *)
Fixpoint decimal_digits (fuel : nat) (u : Z) (acc : string) : string :=
  match fuel with
  | O => acc
  | S fuel' =>
      if u <? 10 then String (digit u) acc
      else decimal_digits fuel' (u / 10) (String (digit (u mod 10)) acc)
  end.

Definition decimal (u : Z) : string := decimal_digits 20 u "".

(** [appendInt(b, x, width)], as what it appends: a sign, zeros up to
    [width] digits, the digits. *)
Definition appendInt (x : Z) (width : Z) : string :=
  let digits := decimal (Z.abs x) in
  (if x <? 0 then "-" else "")
  ++ zeros (Z.to_nat (width - Z.of_nat (String.length digits)))
  ++ digits.

(** The chunks a layout of digits can hold. *)
Inductive std :=
| stdZeroMonth | stdZeroDay | stdZeroHour12 | stdZeroMinute | stdZeroSecond
| stdYear | stdZeroYearDay | stdHour | stdNumMonth | stdLongYear | stdDay
| stdHour12 | stdMinute | stdSecond.

(** [std0x]: the chunks [01] to [06]. *)
Definition std0x (c : ascii) : std :=
  let k := strconv.byte c - 49 in
  if k =? 0 then stdZeroMonth
  else if k =? 1 then stdZeroDay
  else if k =? 2 then stdZeroHour12
  else if k =? 3 then stdZeroMinute
  else if k =? 4 then stdZeroSecond
  else stdYear.

Definition hour12 (hour : Z) : Z :=
  let hr := Z.rem hour 12 in if hr =? 0 then 12 else hr.

(** What [AppendFormat] appends for a chunk. *)
Definition appendStd (s : std) (t : Time) : string :=
  match s with
  | stdYear => appendInt (Z.rem (Z.abs (Year t)) 100) 2
  | stdLongYear => appendInt (Year t) 4
  | stdNumMonth => appendInt (Month t) 0
  | stdZeroMonth => appendInt (Month t) 2
  | stdDay => appendInt (Day t) 0
  | stdZeroDay => appendInt (Day t) 2
  | stdZeroYearDay => appendInt (YearDay t) 3
  | stdHour => appendInt (Hour t) 2
  | stdHour12 => appendInt (hour12 (Hour t)) 0
  | stdZeroHour12 => appendInt (hour12 (Hour t)) 2
  | stdMinute => appendInt (Minute t) 0
  | stdZeroMinute => appendInt (Minute t) 2
  | stdSecond => appendInt (Second t) 0
  | stdZeroSecond => appendInt (Second t) 2
  end.

(** The bytes that open the other chunks of the library ([Jan],
    [Mon], [MST], [_2], [PM], [pm], [-07], [Z07], [.000], [,000]):
    a layout with one of them is outside what is written out here. *)
Definition opens_other_chunk (c : ascii) : bool :=
  let b := strconv.byte c in
  (b =? 74) || (b =? 77) || (b =? 95) || (b =? 80) || (b =? 112)
  || (b =? 45) || (b =? 90) || (b =? 46) || (b =? 44).

(** [t.Format(layout)]: [None] for a layout outside the chunks above. *)
Fixpoint Format (layout : string) (t : Time) : option string :=
  match layout with
  | EmptyString => Some ""
  | String c rest =>
      let chunk (s : std) (suffix : string) :=
        option_map (append (appendStd s t)) (Format suffix t) in
      let literal := option_map (String c) (Format rest t) in
      let b := strconv.byte c in
      if opens_other_chunk c then None
      else if b =? 48 then
        match rest with
        | String c1 rest1 =>
            if (49 <=? strconv.byte c1) && (strconv.byte c1 <=? 54)
            then chunk (std0x c1) rest1
            else
              match rest1 with
              | String c2 rest2 =>
                  if (strconv.byte c1 =? 48) && (strconv.byte c2 =? 50)
                  then chunk stdZeroYearDay rest2
                  else literal
              | EmptyString => literal
              end
        | EmptyString => literal
        end
      else if b =? 49 then
        match rest with
        | String c1 rest1 =>
            if strconv.byte c1 =? 53 then chunk stdHour rest1
            else chunk stdNumMonth rest
        | EmptyString => chunk stdNumMonth rest
        end
      else if b =? 50 then
        match rest with
        | String c1 (String c2 (String c3 rest3)) =>
            if (strconv.byte c1 =? 48) && (strconv.byte c2 =? 48)
               && (strconv.byte c3 =? 54)
            then chunk stdLongYear rest3
            else chunk stdDay rest
        | _ => chunk stdDay rest
        end
      else if b =? 51 then chunk stdHour12 rest
      else if b =? 52 then chunk stdMinute rest
      else if b =? 53 then chunk stdSecond rest
      else literal
  end.

(** A number written with two digits and with four. *)
Definition two_digits (x : Z) : string :=
  String (digit (x / 10)) (String (digit (x mod 10)) "").

Definition four_digits (x : Z) : string :=
  String (digit (x / 1000))
    (String (digit (x / 100 mod 10))
       (String (digit (x / 10 mod 10)) (String (digit (x mod 10)) ""))).

End time.

(** [baseUrl], and [fmt.Sprintf(baseUrl, dateStr)]: the one [%s] ends
    the format. *)
Definition baseUrl : string :=
  "http://www.cbr.ru/scripts/XML_daily_eng.asp?date_req=%s".

Definition Sprintf_baseUrl (dateStr : string) : string :=
  substring 0 (String.length baseUrl - 2) baseUrl ++ dateStr.

(** The address asked for the day [d]: by the first copy, by the
    second. *)
Definition request_url (d : time.Time) : option string :=
  option_map Sprintf_baseUrl (time.Format "08/03/2024" d).

Definition second_copy_request_url (d : time.Time) : option string :=
  option_map Sprintf_baseUrl (time.Format "02/01/2006" d).

(** ** Sample records

    The rates of the scenarios, with the codes and names of the feed. *)

Definition sample (numCode charCode name value : string) : Valute :=
  {| Valute.ID := "R0" ++ numCode;
     Valute.NumCode := numCode;
     Valute.CharCode := charCode;
     Valute.Nominal := 1;
     Valute.Name := name;
     Valute.Value := value |}.

Definition usd : string -> Valute := sample "840" "USD" "US Dollar".
Definition eur : string -> Valute := sample "978" "EUR" "Euro".
Definition jpy : string -> Valute := sample "392" "JPY" "Japanese Yen".

(** Three days of the dollar: 75,5 then 76,2 then 74,0. *)
Definition three_days : list (string * Valute) :=
  [("2024-01-01", usd "75,5"); ("2024-01-02", usd "76,2");
   ("2024-01-03", usd "74,0")].

(** Four days of the dollar with the maximum twice, and two days that
    open with a NaN. *)
Definition tie_days : list (string * Valute) :=
  [("2024-01-01", usd "75,5"); ("2024-01-02", usd "76,2");
   ("2024-01-03", usd "76,2"); ("2024-01-04", usd "74,0")].

Definition nan_days : list (string * Valute) :=
  [("2024-01-01", usd "NaN"); ("2024-01-02", usd "75,5")].

(** A time of the day [day]/[month]/[year], at [hour]:[minute]. *)
Definition sample_time (year month day hour minute : Z) : time.Time :=
  {| time.Year := year; time.Month := month; time.Day := day;
     time.Hour := hour; time.Minute := minute; time.Second := 0;
     time.YearDay := 1 |}.

(** * Properties *)

(** ** The order of float64

    [<=] on the numbers that are not NaN is reflexive, total and
    transitive; a NaN compares with nothing. *)

Lemma compare_cont_Eq (p q : positive) : Pos.compare_cont Eq p q = (p ?= q)%positive.
Proof. reflexivity. Qed.

Ltac float_cases :=
  repeat match goal with
         | x : spec_float |- _ => destruct x as [[]|[]| |[] ? ?]
         end;
  cbn in *; try congruence.

Ltac order_cases :=
  intros;
  repeat match goal with
         | |- context [(?a ?= ?b)%Z] => destruct (Z.compare_spec a b)
         | H : context [(?a ?= ?b)%Z] |- _ => destruct (Z.compare_spec a b)
         | |- context [Pos.compare_cont Eq ?a ?b] =>
             rewrite (compare_cont_Eq a b) in *; destruct (Pos.compare_spec a b)
         | H : context [Pos.compare_cont Eq ?a ?b] |- _ =>
             rewrite (compare_cont_Eq a b) in *; destruct (Pos.compare_spec a b)
         end;
  cbn in *; try congruence; try lia.

Lemma leb_refl (x : float64) : Float64.is_nan x = false -> Float64.leb x x = true.
Proof.
  unfold Float64.leb, SFleb. float_cases; order_cases.
Qed.

Lemma ltb_leb (x y : float64) : Float64.ltb x y = true -> Float64.leb x y = true.
Proof.
  unfold Float64.ltb, Float64.leb, SFltb, SFleb.
  destruct (SFcompare x y) as [[]|]; congruence.
Qed.

Lemma not_ltb_leb (x y : float64) :
  Float64.is_nan x = false -> Float64.is_nan y = false ->
  Float64.ltb x y = false -> Float64.leb y x = true.
Proof.
  unfold Float64.ltb, Float64.leb, SFltb, SFleb.
  float_cases; order_cases.
Qed.

Lemma leb_trans (x y z : float64) :
  Float64.leb x y = true -> Float64.leb y z = true -> Float64.leb x z = true.
Proof.
  unfold Float64.leb, SFleb. float_cases; order_cases.
Qed.

Lemma leb_not_nan (x y : float64) :
  Float64.leb x y = true -> Float64.is_nan x = false /\ Float64.is_nan y = false.
Proof.
  unfold Float64.leb, SFleb. float_cases; auto.
Qed.

Lemma ltb_nan_l (y : float64) : Float64.ltb Float64.NaN y = false.
Proof. reflexivity. Qed.

Lemma ltb_nan_r (x : float64) : Float64.ltb x Float64.NaN = false.
Proof. destruct x; reflexivity. Qed.

(** Two numbers that are equal as floats compare alike with a third. *)
Lemma ltb_eqb_r (x y z : float64) :
  Float64.eqb y z = true -> Float64.ltb x y = Float64.ltb x z.
Proof.
  unfold Float64.eqb, Float64.ltb, SFeqb, SFltb. float_cases; order_cases.
Qed.

Lemma ltb_eqb_l (x y z : float64) :
  Float64.eqb x y = true -> Float64.ltb x z = Float64.ltb y z.
Proof.
  unfold Float64.eqb, Float64.ltb, SFeqb, SFltb. float_cases; order_cases.
Qed.

Lemma eqb_not_ltb (x y : float64) :
  Float64.eqb x y = true -> Float64.ltb x y = false /\ Float64.ltb y x = false.
Proof.
  unfold Float64.eqb, Float64.ltb, SFeqb, SFltb. float_cases; order_cases; auto.
Qed.

(** ** int *)

Lemma wrap_in_range (n : Z) :
  Int.min_int <= n <= Int.max_int -> Int.wrap n = n.
Proof.
  unfold Int.wrap, Int.min_int, Int.max_int, Int.bits. intros H.
  rewrite Z.mod_small; lia.
Qed.

Lemma incr_in_range (n : Z) :
  Int.min_int <= n < Int.max_int -> Int.incr n = n + 1.
Proof.
  intros H. unfold Int.incr, Int.add. apply wrap_in_range. lia.
Qed.

Lemma wrap_succ (n : Z) : Int.wrap (Int.wrap n + 1) = Int.wrap (n + 1).
Proof.
  unfold Int.wrap.
  replace ((n - Int.min_int) mod 2 ^ Int.bits + Int.min_int + 1 - Int.min_int)
    with ((n - Int.min_int) mod 2 ^ Int.bits + 1) by lia.
  replace (n + 1 - Int.min_int) with (n - Int.min_int + 1) by lia.
  f_equal. rewrite Z.add_mod_idemp_l; [reflexivity | unfold Int.bits; lia].
Qed.

Lemma incr_neq (n : Z) : Int.min_int <= n <= Int.max_int -> Int.incr n <> n.
Proof.
  intros H. destruct (Z.eq_dec n Int.max_int) as [->|Hne].
  - vm_compute. discriminate.
  - rewrite incr_in_range; lia.
Qed.

(** ** The table *)

Section Properties.

Variable ParseFloat : string -> option float64.

Lemma analyzeValute_skip (date : string) (valute : Valute) (w : world) :
  ParseFloat (valueStr valute) = None ->
  analyzeValute ParseFloat date valute w =
    {| globalStats := globalStats w;
       stdout := stdout w
                 ++ [ConvertError (Valute.CharCode valute) (valueStr valute)] |}.
Proof. intros H. unfold analyzeValute. rewrite H. reflexivity. Qed.

(** A record touches the entry of its own currency and no other. *)
Lemma analyzeValute_lookup (date : string) (valute : Valute) (w : world)
  (c : string) :
  globalStats (analyzeValute ParseFloat date valute w) !! c =
    if decide (Valute.CharCode valute = c)
    then fold_entry ParseFloat (globalStats w !! c) (date, valute)
    else globalStats w !! c.
Proof.
  unfold analyzeValute, fold_entry, parsed. cbn [fst snd].
  destruct (ParseFloat (valueStr valute)) as [value|]; cbn.
  - destruct (globalStats w !! Valute.CharCode valute) as [stats|] eqn:E; cbn;
      rewrite lookup_insert; destruct (decide (Valute.CharCode valute = c));
      subst; rewrite ?E; rewrite ?decide_True by done;
      rewrite ?decide_False by done; reflexivity.
  - destruct (decide _); reflexivity.
Qed.

Lemma fold_entry_unparseable (o : option CurrencyStats) (r : string * Valute) :
  parseable ParseFloat r = false -> fold_entry ParseFloat o r = o.
Proof.
  unfold parseable, fold_entry. destruct (parsed ParseFloat r); [discriminate | done].
Qed.

(** The entry of [c] after a sequence of records is what the folded
    records of [c], in their order, make of the entry before. *)
Lemma fold_records_lookup (rs : list (string * Valute)) (w : world) (c : string) :
  globalStats (fold_records ParseFloat rs w) !! c =
    fold_left (fold_entry ParseFloat) (observations ParseFloat c rs)
      (globalStats w !! c).
Proof.
  revert w. induction rs as [|[d v] rs IH]; intros w; [reflexivity|].
  cbn [fold_records fold_left observations List.filter].
  change (fold_left _ rs ?w0) with (fold_records ParseFloat rs w0).
  rewrite IH, analyzeValute_lookup. unfold of_currency. cbn [snd].
  destruct (decide (Valute.CharCode v = c)) as [Hc|Hc].
  - rewrite bool_decide_eq_true_2 by done. cbn [andb].
    destruct (parseable ParseFloat (d, v)) eqn:Hp; [reflexivity|].
    rewrite fold_entry_unparseable by done. reflexivity.
  - rewrite bool_decide_eq_false_2 by done. reflexivity.
Qed.

Lemma fold_records_app (rs1 rs2 : list (string * Valute)) (w : world) :
  fold_records ParseFloat (rs1 ++ rs2) w =
    fold_records ParseFloat rs2 (fold_records ParseFloat rs1 w).
Proof. unfold fold_records. apply fold_left_app. Qed.

Lemma analyzeData_records (valCurs : ValCurs) (w : world) :
  analyzeData ParseFloat valCurs w =
    fold_records ParseFloat ((fun v => (Date valCurs, v)) <$> Valutes valCurs) w.
Proof.
  unfold analyzeData, fold_records. generalize (Valutes valCurs).
  intros l. revert w. induction l as [|v l IH]; intros w; [reflexivity|].
  cbn. apply IH.
Qed.

(** A run over documents is the fold of their records in sequence. *)
Lemma run_records (docs : list ValCurs) (w : world) :
  run ParseFloat docs w = fold_records ParseFloat (records docs) w.
Proof.
  revert w. induction docs as [|valCurs docs IH]; intros w; [reflexivity|].
  cbn [run fold_left]. change (fold_left _ docs ?w0) with (run ParseFloat docs w0).
  rewrite IH. unfold records. cbn [mbind list_bind].
  rewrite fold_records_app, analyzeData_records. reflexivity.
Qed.

Lemma observations_app (c : string) (rs1 rs2 : list (string * Valute)) :
  observations ParseFloat c (rs1 ++ rs2) =
    (observations ParseFloat c rs1 ++ observations ParseFloat c rs2)%list.
Proof. unfold observations. apply List.filter_app. Qed.

Lemma observations_filter (c : string) (rs : list (string * Valute)) :
  observations ParseFloat c rs =
    List.filter (parseable ParseFloat) (List.filter (of_currency c) rs).
Proof.
  induction rs as [|r rs IH]; [reflexivity|].
  unfold observations in *. cbn.
  destruct (of_currency c r); cbn; rewrite IH; reflexivity.
Qed.

(** The table does not depend on what was printed before. *)
Lemma fold_records_stats (rs : list (string * Valute)) (w1 w2 : world) :
  globalStats w1 = globalStats w2 ->
  globalStats (fold_records ParseFloat rs w1) =
    globalStats (fold_records ParseFloat rs w2).
Proof.
  intros H. apply map_eq. intros c. rewrite !fold_records_lookup, H. reflexivity.
Qed.

(** ** One fold *)

Lemma analyzeValute_existing (date : string) (valute : Valute) (w : world)
  (stats : CurrencyStats) (v : float64) :
  ParseFloat (valueStr valute) = Some v ->
  globalStats w !! Valute.CharCode valute = Some stats ->
  analyzeValute ParseFloat date valute w =
    {| globalStats :=
         <[Valute.CharCode valute := update_stats date v stats]> (globalStats w);
       stdout := stdout w |}.
Proof. intros Hv Hs. unfold analyzeValute. rewrite Hv, Hs. reflexivity. Qed.

Lemma analyzeValute_new (date : string) (valute : Valute) (w : world)
  (v : float64) :
  ParseFloat (valueStr valute) = Some v ->
  globalStats w !! Valute.CharCode valute = None ->
  analyzeValute ParseFloat date valute w =
    {| globalStats :=
         <[Valute.CharCode valute := new_stats date valute v]> (globalStats w);
       stdout := stdout w |}.
Proof. intros Hv Hs. unfold analyzeValute. rewrite Hv, Hs. reflexivity. Qed.

(** A value that equals the one just folded moves neither date. *)
Lemma update_stats_equal_again (d1 d2 : string) (v1 v2 : float64)
  (stats : CurrencyStats) :
  Float64.eqb v1 v2 = true ->
  MaxDate (update_stats d2 v2 (update_stats d1 v1 stats)) =
    MaxDate (update_stats d1 v1 stats)
  /\ MinDate (update_stats d2 v2 (update_stats d1 v1 stats)) =
    MinDate (update_stats d1 v1 stats).
Proof.
  intros He. cbn.
  destruct (eqb_not_ltb _ _ He) as [H12 H21].
  pose proof (ltb_eqb_r (MaxValue stats) _ _ He) as Hmax.
  pose proof (ltb_eqb_l _ _ (MinValue stats) He) as Hmin.
  destruct (Float64.ltb (MaxValue stats) v1), (Float64.ltb v1 (MinValue stats));
    rewrite <- ?Hmax, <- ?Hmin, ?H12, ?H21; auto.
Qed.

(** C1. Folding a record whose text parses to [v] into a currency that
    has an aggregate: the sum becomes sum + v and the count count + 1
    (as an [int]: exactly count + 1 below the largest [int]); the
    maximum and its date become [v] and the date of the record exactly
    when [v] is strictly greater than the maximum, the minimum and its
    date exactly when [v] is strictly less than the minimum, and are
    kept otherwise; a value equal to an extreme leaves its date; and of
    two records of one currency with equal values, the second moves
    neither date, so that after a first observation both dates are
    those of the first record. *)
Theorem fold_existing_aggregate :
  (forall (date : string) (valute : Valute) (w : world) (stats : CurrencyStats)
          (v : float64),
      ParseFloat (valueStr valute) = Some v ->
      globalStats w !! Valute.CharCode valute = Some stats ->
      exists stats',
        globalStats (analyzeValute ParseFloat date valute w)
          !! Valute.CharCode valute = Some stats'
        /\ TotalValue stats' = Float64.add (TotalValue stats) v
        /\ Count stats' = Int.incr (Count stats)
        /\ (Int.min_int <= Count stats < Int.max_int ->
            Count stats' = Count stats + 1)
        /\ (Float64.ltb (MaxValue stats) v = true ->
            MaxValue stats' = v /\ MaxDate stats' = date)
        /\ (Float64.ltb (MaxValue stats) v = false ->
            MaxValue stats' = MaxValue stats /\ MaxDate stats' = MaxDate stats)
        /\ (Float64.ltb v (MinValue stats) = true ->
            MinValue stats' = v /\ MinDate stats' = date)
        /\ (Float64.ltb v (MinValue stats) = false ->
            MinValue stats' = MinValue stats /\ MinDate stats' = MinDate stats)
        /\ (Float64.eqb v (MaxValue stats) = true ->
            MaxDate stats' = MaxDate stats)
        /\ (Float64.eqb v (MinValue stats) = true ->
            MinDate stats' = MinDate stats))
  /\ (forall (d1 d2 : string) (r1 r2 : Valute) (w : world) (v1 v2 : float64),
        Valute.CharCode r1 = Valute.CharCode r2 ->
        ParseFloat (valueStr r1) = Some v1 ->
        ParseFloat (valueStr r2) = Some v2 ->
        Float64.eqb v1 v2 = true ->
        exists s1 s2,
          globalStats (analyzeValute ParseFloat d1 r1 w)
            !! Valute.CharCode r1 = Some s1
          /\ globalStats
               (analyzeValute ParseFloat d2 r2 (analyzeValute ParseFloat d1 r1 w))
               !! Valute.CharCode r1 = Some s2
          /\ MaxDate s2 = MaxDate s1 /\ MinDate s2 = MinDate s1
          /\ (globalStats w !! Valute.CharCode r1 = None ->
              MaxDate s2 = d1 /\ MinDate s2 = d1)).
Proof.
  split.
  - intros date valute w stats v Hv Hs.
    exists (update_stats date v stats).
    rewrite (analyzeValute_existing _ _ _ _ _ Hv Hs). cbn [globalStats].
    rewrite lookup_insert_eq. split; [reflexivity|]. cbn.
    split; [reflexivity|]. split; [reflexivity|].
    split; [apply incr_in_range|].
    repeat split;
      try match goal with H : Float64.ltb _ _ = _ |- _ => rewrite H; reflexivity end.
    + intros He. destruct (eqb_not_ltb _ _ He) as [_ ->]. reflexivity.
    + intros He. destruct (eqb_not_ltb _ _ He) as [-> _]. reflexivity.
  - intros d1 d2 r1 r2 w v1 v2 Hc Hv1 Hv2 He.
    destruct (globalStats w !! Valute.CharCode r1) as [stats|] eqn:Hs.
    + rewrite (analyzeValute_existing _ _ _ _ _ Hv1 Hs).
      erewrite (analyzeValute_existing d2 r2);
        [ | exact Hv2 | cbn [globalStats]; rewrite <- Hc; apply lookup_insert_eq ].
      cbn [globalStats]. rewrite <- Hc, insert_insert_eq, !lookup_insert_eq.
      eexists _, _. split; [reflexivity|]. split; [reflexivity|].
      destruct (update_stats_equal_again d1 d2 v1 v2 stats He) as [Hmax Hmin].
      repeat split; try assumption; discriminate.
    + rewrite (analyzeValute_new _ _ _ _ Hv1 Hs).
      erewrite (analyzeValute_existing d2 r2);
        [ | exact Hv2 | cbn [globalStats]; rewrite <- Hc; apply lookup_insert_eq ].
      cbn [globalStats]. rewrite <- Hc, insert_insert_eq, !lookup_insert_eq.
      eexists _, _. split; [reflexivity|]. split; [reflexivity|].
      destruct (eqb_not_ltb _ _ He) as [H12 H21]. cbn.
      rewrite H12, H21. repeat split; reflexivity.
Qed.

(** C3. A record whose text does not parse changes nothing in the
    table: no entry appears and none changes; the fold answers with one
    line for the record and no more; and the records around it, in its
    document and in the documents after, are folded as if it were not
    there. *)
Theorem unparseable_record_skipped (date : string) (valute : Valute) :
  ParseFloat (valueStr valute) = None ->
  (forall w : world,
      globalStats (analyzeValute ParseFloat date valute w) = globalStats w
      /\ stdout (analyzeValute ParseFloat date valute w) =
           (stdout w
            ++ [ConvertError (Valute.CharCode valute) (valueStr valute)])%list)
  /\ (forall (before after : list Valute) (w : world),
        analyzeData ParseFloat
          {| Date := date; Valutes := before ++ valute :: after |} w =
        analyzeData ParseFloat {| Date := date; Valutes := after |}
          (analyzeValute ParseFloat date valute
             (analyzeData ParseFloat {| Date := date; Valutes := before |} w)))
  /\ (forall (before after : list Valute) (docs1 docs2 : list ValCurs) (w : world),
        globalStats
          (run ParseFloat
             (docs1 ++ {| Date := date; Valutes := before ++ valute :: after |}
                    :: docs2) w) =
        globalStats
          (run ParseFloat
             (docs1 ++ {| Date := date; Valutes := before ++ after |} :: docs2)
             w)).
Proof.
  intros Hnone. split; [|split].
  - intros w. rewrite analyzeValute_skip by assumption. split; reflexivity.
  - intros before after w. unfold analyzeData. cbn [Date Valutes].
    rewrite fold_left_app. reflexivity.
  - intros before after docs1 docs2 w. apply map_eq. intros c.
    rewrite !run_records, !fold_records_lookup. f_equal.
    unfold records. rewrite !bind_app, !bind_cons. cbn [Date Valutes].
    rewrite !fmap_app, fmap_cons, !observations_app.
    assert (Hskip : forall l,
               observations ParseFloat c ((date, valute) :: l) =
               observations ParseFloat c l).
    { intros l. unfold observations. cbn [List.filter].
      unfold parseable at 1, parsed. cbn [snd].
      rewrite Hnone, andb_false_r. reflexivity. }
    rewrite Hskip. reflexivity.
Qed.

(** C4. Folding a record whose text parses to [v] for a currency that
    has no aggregate inserts one, with both extremes [v], both dates
    the date of the record, the sum [v] and the count 1; the other
    entries stay. *)
Theorem fold_new_aggregate (date : string) (valute : Valute) (w : world)
  (v : float64) :
  ParseFloat (valueStr valute) = Some v ->
  globalStats w !! Valute.CharCode valute = None ->
  (exists stats,
      globalStats (analyzeValute ParseFloat date valute w)
        !! Valute.CharCode valute = Some stats
      /\ MinValue stats = v /\ MaxValue stats = v
      /\ MinDate stats = date /\ MaxDate stats = date
      /\ TotalValue stats = v /\ Count stats = 1)
  /\ (forall c : string,
        c <> Valute.CharCode valute ->
        globalStats (analyzeValute ParseFloat date valute w) !! c =
          globalStats w !! c).
Proof.
  intros Hv Hs. rewrite (analyzeValute_new _ _ _ _ Hv Hs). cbn [globalStats].
  split.
  - exists (new_stats date valute v). rewrite lookup_insert_eq.
    repeat split; reflexivity.
  - intros c Hc. apply lookup_insert_ne. congruence.
Qed.

(** ** Sequences of folds, one currency at a time *)

Lemma observations_In (c : string) (rs : list (string * Valute))
  (r : string * Valute) :
  In r (observations ParseFloat c rs) ->
  In r rs /\ Valute.CharCode (snd r) = c /\ exists v, parsed ParseFloat r = Some v.
Proof.
  unfold observations. rewrite List.filter_In, andb_true_iff.
  unfold of_currency, parseable. intros (Hin & Hc & Hp).
  apply bool_decide_eq_true in Hc.
  destruct (parsed ParseFloat r) as [v|]; [eauto | discriminate].
Qed.

Lemma observations_parseable (c : string) (rs : list (string * Valute)) :
  Forall (fun r => exists v, parsed ParseFloat r = Some v)
    (observations ParseFloat c rs).
Proof.
  apply List.Forall_forall. intros r Hr.
  apply observations_In in Hr. tauto.
Qed.

Lemma fold_entry_Some (stats : CurrencyStats) (r : string * Valute) (v : float64) :
  parsed ParseFloat r = Some v ->
  fold_entry ParseFloat (Some stats) r = Some (update_stats (fst r) v stats).
Proof. intros H. unfold fold_entry. rewrite H. reflexivity. Qed.

Lemma fold_entry_None (r : string * Valute) (v : float64) :
  parsed ParseFloat r = Some v ->
  fold_entry ParseFloat None r = Some (new_stats (fst r) (snd r) v).
Proof. intros H. unfold fold_entry. rewrite H. reflexivity. Qed.


(** The count after a sequence of folded records. *)
Lemma fold_left_entry_count (obs : list (string * Valute))
  (o : option CurrencyStats) (k : Z) :
  Forall (fun r => exists v, parsed ParseFloat r = Some v) obs ->
  entry_count o = Int.wrap k ->
  entry_count (fold_left (fold_entry ParseFloat) obs o) =
    Int.wrap (k + Z.of_nat (length obs)).
Proof.
  revert o k. induction obs as [|r obs IH]; intros o k Hall Hk.
  - cbn. rewrite Z.add_0_r. exact Hk.
  - apply Forall_cons in Hall as [[v Hv] Hall]. cbn [fold_left length].
    rewrite (IH _ (k + 1)); [f_equal; lia | assumption |].
    destruct o as [stats|].
    + rewrite (fold_entry_Some _ _ _ Hv). cbn in *.
      unfold Int.incr, Int.add. rewrite Hk. apply wrap_succ.
    + rewrite (fold_entry_None _ _ Hv). cbn in *.
      rewrite <- wrap_succ, <- Hk. reflexivity.
Qed.

Lemma fold_left_entry_is_Some (obs : list (string * Valute))
  (o : option CurrencyStats) :
  Forall (fun r => exists v, parsed ParseFloat r = Some v) obs ->
  is_Some (fold_left (fold_entry ParseFloat) obs o) <-> is_Some o \/ obs <> [].
Proof.
  revert o. induction obs as [|r obs IH]; intros o Hall; cbn [fold_left].
  - split; [auto | intros [H|H]; [exact H | congruence]].
  - apply Forall_cons in Hall as [[v Hv] Hall]. rewrite (IH _ Hall).
    split; [intros _; right; discriminate | intros _; left].
    destruct o; [rewrite (fold_entry_Some _ _ _ Hv) | rewrite (fold_entry_None _ _ Hv)];
      eauto.
Qed.


(** When no value is a NaN, the extremes enclose every folded value. *)
Lemma fold_left_entry_bounds (obs : list (string * Valute))
  (stats : CurrencyStats) :
  (forall r v, In r obs -> parsed ParseFloat r = Some v -> Float64.is_nan v = false) ->
  Float64.is_nan (MinValue stats) = false ->
  Float64.is_nan (MaxValue stats) = false ->
  exists stats',
    fold_left (fold_entry ParseFloat) obs (Some stats) = Some stats'
    /\ Float64.leb (MinValue stats') (MinValue stats) = true
    /\ Float64.leb (MaxValue stats) (MaxValue stats') = true
    /\ forall r v, In r obs -> parsed ParseFloat r = Some v ->
         Float64.leb (MinValue stats') v = true
         /\ Float64.leb v (MaxValue stats') = true.
Proof.
  revert stats. induction obs as [|r obs IH]; intros stats Hnan Hmin Hmax;
    cbn [fold_left].
  - exists stats. split; [reflexivity|].
    split; [apply leb_refl, Hmin|]. split; [apply leb_refl, Hmax|].
    intros r v [].
  - assert (Hrest : forall r' v', In r' obs -> parsed ParseFloat r' = Some v' ->
                                  Float64.is_nan v' = false)
      by (intros r' v' Hin; apply Hnan; right; exact Hin).
    unfold fold_entry at 2. destruct (parsed ParseFloat r) as [v|] eqn:Hv.
    + assert (Hvn : Float64.is_nan v = false) by (apply (Hnan r); auto using in_eq).
      assert (Hlo : Float64.leb (MinValue (update_stats (fst r) v stats)) v = true
                    /\ Float64.leb (MinValue (update_stats (fst r) v stats))
                         (MinValue stats) = true).
      { cbn. destruct (Float64.ltb v (MinValue stats)) eqn:E.
        - auto using leb_refl, ltb_leb.
        - auto using leb_refl, not_ltb_leb. }
      assert (Hhi : Float64.leb v (MaxValue (update_stats (fst r) v stats)) = true
                    /\ Float64.leb (MaxValue stats)
                         (MaxValue (update_stats (fst r) v stats)) = true).
      { cbn. destruct (Float64.ltb (MaxValue stats) v) eqn:E.
        - auto using leb_refl, ltb_leb.
        - auto using leb_refl, not_ltb_leb. }
      destruct Hlo as [Hlo1 Hlo2], Hhi as [Hhi1 Hhi2].
      destruct (IH (update_stats (fst r) v stats) Hrest)
        as (stats' & -> & Hle & Hge & Hall).
      { apply (leb_not_nan _ _ Hlo1). }
      { apply (leb_not_nan _ _ Hhi1). }
      exists stats'. split; [reflexivity|].
      split; [eapply leb_trans; eassumption|].
      split; [eapply leb_trans; eassumption|].
      intros r' v' [<-|Hin] Hv'.
      * rewrite Hv in Hv'. injection Hv' as <-.
        split; eapply leb_trans; eassumption.
      * apply (Hall r'); assumption.
    + destruct (IH stats Hrest Hmin Hmax) as (stats' & -> & Hle & Hge & Hall).
      exists stats'. split; [reflexivity|]. split; [exact Hle|].
      split; [exact Hge|].
      intros r' v' [<-|Hin] Hv'; [congruence | apply (Hall r'); assumption].
Qed.

(** The entry of a currency after a run from the empty table: none
    when no record of it was folded, else what the records after the
    first make of the entry of the first. *)
Lemma lookup_fold_records_world0 (rs : list (string * Valute)) (c : string) :
  match observations ParseFloat c rs with
  | [] => globalStats (fold_records ParseFloat rs world0) !! c = None
  | r0 :: obs =>
      exists v0,
        parsed ParseFloat r0 = Some v0
        /\ globalStats (fold_records ParseFloat rs world0) !! c =
             fold_left (fold_entry ParseFloat) obs
               (Some (new_stats (fst r0) (snd r0) v0))
  end.
Proof.
  rewrite fold_records_lookup. cbn [world0 globalStats]. rewrite lookup_empty.
  pose proof (observations_parseable c rs) as Hall.
  destruct (observations ParseFloat c rs) as [|r0 obs]; [reflexivity|].
  apply Forall_cons in Hall as [[v0 Hv0] _]. exists v0.
  split; [exact Hv0|]. cbn [fold_left]. rewrite (fold_entry_None _ _ Hv0).
  reflexivity.
Qed.

(** The sum of an entry through a sequence of records. *)
Lemma fold_left_entry_total (obs : list (string * Valute))
  (stats : CurrencyStats) :
  exists stats',
    fold_left (fold_entry ParseFloat) obs (Some stats) = Some stats'
    /\ TotalValue stats' =
         fold_left Float64.add (omap (parsed ParseFloat) obs) (TotalValue stats)
    /\ Average stats' = Average stats.
Proof.
  revert stats. induction obs as [|r obs IH]; intros stats;
    cbn [fold_left omap list_omap].
  - exists stats. auto.
  - unfold fold_entry at 2.
    destruct (parsed ParseFloat r) as [v|] eqn:Hv; [|apply IH].
    destruct (IH (update_stats (fst r) v stats)) as (stats' & -> & Ht & Ha).
    exists stats'. split; [reflexivity|]. split; [exact Ht | exact Ha].
Qed.

(** ** Whole runs *)

(** C2, as amended. When none of the values folded for a currency is a
    NaN, the aggregate of the currency after all the folds has
    [MinValue <= v <= MaxValue] for every value [v] folded for it. *)
Theorem extremes_enclose_folded_values (rs : list (string * Valute))
  (c : string) (stats : CurrencyStats) :
  (forall r v, In r (observations ParseFloat c rs) ->
               parsed ParseFloat r = Some v -> Float64.is_nan v = false) ->
  globalStats (fold_records ParseFloat rs world0) !! c = Some stats ->
  forall r v, In r (observations ParseFloat c rs) ->
              parsed ParseFloat r = Some v ->
              Float64.leb (MinValue stats) v = true
              /\ Float64.leb v (MaxValue stats) = true.
Proof.
  intros Hnan Hst r v Hin Hv.
  pose proof (lookup_fold_records_world0 rs c) as H.
  destruct (observations ParseFloat c rs) as [|r0 obs]; [destruct Hin|].
  destruct H as (v0 & Hv0 & H). rewrite Hst in H.
  assert (Hn0 : Float64.is_nan v0 = false) by (apply (Hnan r0); auto using in_eq).
  destruct (fold_left_entry_bounds obs (new_stats (fst r0) (snd r0) v0))
    as (stats' & Hf & Hle & Hge & Hall); try exact Hn0.
  { intros r' v' Hin'. apply Hnan. right. exact Hin'. }
  rewrite Hf in H. injection H as ->. cbn in Hle, Hge.
  destruct Hin as [<-|Hin].
  - rewrite Hv0 in Hv. injection Hv as <-. auto.
  - apply (Hall r); assumption.
Qed.

(** The count of the entry of [c] after a run from the empty table. *)
Lemma fold_records_count (rs : list (string * Valute)) (c : string) :
  let n := Z.of_nat (length (observations ParseFloat c rs)) in
  match globalStats (fold_records ParseFloat rs world0) !! c with
  | Some stats =>
      0 < n /\ Count stats = Int.wrap n /\ (n <= Int.max_int -> Count stats = n)
  | None => n = 0
  end.
Proof.
  intros n.
  pose proof (observations_parseable c rs) as Hall.
  pose proof (fold_left_entry_count _ None 0 Hall eq_refl) as Hcount.
  pose proof (fold_left_entry_is_Some _ None Hall) as Hsome.
  rewrite fold_records_lookup. cbn [world0 globalStats]. rewrite lookup_empty.
  fold n in Hcount. rewrite Z.add_0_l in Hcount.
  destruct (fold_left _ _ None) as [stats|].
  - assert (0 < n).
    { destruct Hsome as [[Hs|Hne] _]; [eauto | destruct Hs; discriminate |].
      subst n. destruct (observations ParseFloat c rs); [congruence | cbn; lia]. }
    cbn in Hcount. split; [assumption|]. split; [exact Hcount|].
    intros Hle. rewrite Hcount. apply wrap_in_range.
    unfold Int.min_int, Int.bits. lia.
  - destruct (observations ParseFloat c rs) as [|r obs]; [reflexivity|].
    destruct Hsome as [_ Hs]. destruct Hs as [? Hs]; [right; discriminate|].
    discriminate.
Qed.

(** C5. After any sequence of folds, a currency has an aggregate
    exactly when one of its records parsed, and the count of the
    aggregate is the number of its records that parsed: that number as
    an [int], hence the number itself as long as an [int] can hold it.
    The same for the records of a list of documents. *)
Theorem count_is_number_of_parseable_records :
  (forall (rs : list (string * Valute)) (c : string),
      let n := Z.of_nat (length (observations ParseFloat c rs)) in
      match globalStats (fold_records ParseFloat rs world0) !! c with
      | Some stats =>
          0 < n /\ Count stats = Int.wrap n
          /\ (n <= Int.max_int -> Count stats = n)
      | None => n = 0
      end)
  /\ (forall (docs : list ValCurs) (c : string),
        let n := Z.of_nat (length (observations ParseFloat c (records docs))) in
        match globalStats (run ParseFloat docs world0) !! c with
        | Some stats =>
            0 < n /\ Count stats = Int.wrap n
            /\ (n <= Int.max_int -> Count stats = n)
        | None => n = 0
        end).
Proof.
  split; [exact fold_records_count|].
  intros docs c. rewrite run_records. apply fold_records_count.
Qed.

(** C6. The closing loop gives every aggregate the average sum / count
    and changes nothing else in it; done again, it changes nothing at
    all; and every aggregate of a run has a count above 0, as long as
    an [int] can hold the number of records folded for its currency. *)
Theorem finalize_average_idempotent :
  (forall (m : gmap string CurrencyStats) (c : string),
      finalize m !! c = set_average <$> m !! c)
  /\ (forall stats : CurrencyStats,
        Average (set_average stats) =
          Float64.div (TotalValue stats) (Float64.of_int (Count stats))
        /\ TotalValue (set_average stats) = TotalValue stats
        /\ Count (set_average stats) = Count stats
        /\ MaxValue (set_average stats) = MaxValue stats
        /\ MinValue (set_average stats) = MinValue stats
        /\ MaxDate (set_average stats) = MaxDate stats
        /\ MinDate (set_average stats) = MinDate stats)
  /\ (forall m : gmap string CurrencyStats, finalize (finalize m) = finalize m)
  /\ (forall (rs : list (string * Valute)) (c : string) (stats : CurrencyStats),
        globalStats (fold_records ParseFloat rs world0) !! c = Some stats ->
        Z.of_nat (length (observations ParseFloat c rs)) <= Int.max_int ->
        0 < Count stats).
Proof.
  split; [|split; [|split]].
  - intros m c. unfold finalize. apply lookup_fmap.
  - intros stats. cbn. repeat split; reflexivity.
  - intros m. unfold finalize. rewrite <- map_fmap_compose.
    apply map_fmap_ext. intros c stats _. reflexivity.
  - intros rs c stats Hst Hle.
    pose proof (fold_records_count rs c) as H.
    cbv zeta in H. rewrite Hst in H.
    destruct H as (Hpos & _ & Hn). rewrite (Hn Hle). exact Hpos.
Qed.

(** C7. Two sequences of records that are permutations of each other
    and list the records of every currency in the same order leave the
    same aggregate for every currency, before and after the closing
    loop: the order of folds across currencies does not matter. *)
Theorem order_across_currencies_irrelevant (rs1 rs2 : list (string * Valute))
  (w : world) :
  Permutation rs1 rs2 ->
  (forall c : string,
      List.filter (of_currency c) rs1 = List.filter (of_currency c) rs2) ->
  forall c : string,
    globalStats (fold_records ParseFloat rs1 w) !! c =
      globalStats (fold_records ParseFloat rs2 w) !! c
    /\ finalize (globalStats (fold_records ParseFloat rs1 w)) !! c =
         finalize (globalStats (fold_records ParseFloat rs2 w)) !! c.
Proof.
  intros _ Horder c.
  assert (H : globalStats (fold_records ParseFloat rs1 w) !! c =
              globalStats (fold_records ParseFloat rs2 w) !! c).
  { rewrite !fold_records_lookup, !observations_filter, Horder. reflexivity. }
  split; [exact H|]. unfold finalize. rewrite !lookup_fmap, H. reflexivity.
Qed.

End Properties.

(** ** The normalization and the parser *)

Lemma byte_dot (c : ascii) : Ascii.eqb c "."%char = (strconv.byte c =? 46).
Proof. destruct c as [[] [] [] [] [] [] [] []]; reflexivity. Qed.

Lemma Count_cons (c d : ascii) (s : string) :
  strings.Count (String c s) d =
    ((if Ascii.eqb c d then 1 else 0) + strings.Count s d)%nat.
Proof. reflexivity. Qed.

(** A byte that is not a period does not count. *)
Ltac not_dot c :=
  rewrite (Count_cons c "."%char), (byte_dot c);
  let E := fresh "E" in
  destruct (strconv.byte c =? 46) eqn:E;
  [ apply Z.eqb_eq in E;
    unfold strconv.is_digit, strconv.is_hex_letter, strconv.is_upper,
      strconv.lower in *;
    rewrite E in *; vm_compute in *; congruence
  | cbn [Nat.add] ].

Lemma Replace_commas (s : string) :
  strings.Count (strings.Replace s ","%char "."%char (-1)) ","%char = 0%nat
  /\ strings.Count (strings.Replace s ","%char "."%char (-1)) "."%char =
       (strings.Count s "."%char + strings.Count s ","%char)%nat.
Proof.
  induction s as [|c s [IH1 IH2]]; [split; reflexivity|].
  cbn [strings.Replace]. change (-1 =? 0) with false.
  change (if -1 <? 0 then -1 else -1 - 1) with (-1). cbn [negb].
  rewrite andb_true_r.
  destruct (Ascii.eqb_spec c ","%char) as [->|Hc].
  - rewrite !Count_cons, IH1, IH2. cbn. split; lia.
  - rewrite !Count_cons, IH1, IH2. apply Ascii.eqb_neq in Hc. rewrite Hc.
    destruct (Ascii.eqb c "."%char); split; lia.
Qed.

Lemma commonPrefixLen_le (s p : string) :
  (strconv.commonPrefixLenIgnoreCase s p <= String.length s)%nat.
Proof.
  revert p. induction s as [|c s IH]; intros [|q p]; cbn; try lia.
  destruct (_ =? _); [specialize (IH p)|]; lia.
Qed.

(** A text that is all of a common prefix with a word without a period
    has no period. *)
Lemma commonPrefixLen_all_no_dot (s p : string) :
  strings.Count p "."%char = 0%nat ->
  strconv.commonPrefixLenIgnoreCase s p = String.length s ->
  strings.Count s "."%char = 0%nat.
Proof.
  revert p. induction s as [|c s IH]; intros p Hp Hn; [reflexivity|].
  destruct p as [|q p]; [discriminate|]. cbn in Hn.
  rewrite Count_cons, byte_dot in Hp.
  destruct (strconv.byte q =? 46) eqn:Eq; [discriminate|]. cbn in Hp.
  destruct (_ =? strconv.byte q) eqn:E; [|discriminate].
  injection Hn as Hn. rewrite Count_cons, byte_dot, (IH p Hp Hn).
  destruct (strconv.byte c =? 46) eqn:Ec; [|reflexivity].
  apply Z.eqb_eq in Ec. unfold strconv.is_upper in E. rewrite Ec in E.
  change ((46 =? strconv.byte q) = true) in E.
  apply Z.eqb_eq in E. rewrite <- E in Eq. discriminate.
Qed.

Lemma special_inf_all_no_dot (s : string) (sign : Z) (nsign : nat)
  (f : float64) (n : nat) :
  strconv.special_inf s sign nsign = Some (f, n) ->
  n = (nsign + String.length s)%nat ->
  strings.Count s "."%char = 0%nat.
Proof.
  unfold strconv.special_inf. intros H Hn.
  pose proof (commonPrefixLen_le s "infinity") as Hle.
  apply (commonPrefixLen_all_no_dot s "infinity"); [reflexivity|].
  destruct ((3 <? _)%nat && (_ <? 8)%nat) eqn:E.
  - cbn in H. injection H as _ <-.
    apply andb_true_iff in E as [E _]. apply Nat.ltb_lt in E. lia.
  - destruct (_ || _); [|discriminate]. injection H as _ <-. lia.
Qed.

Lemma special_all_no_dot (s : string) (f : float64) :
  strconv.special s = Some (f, String.length s) ->
  strings.Count s "."%char = 0%nat.
Proof.
  destruct s as [|c s]; [reflexivity|]. unfold strconv.special.
  destruct ((strconv.byte c =? 43) || (strconv.byte c =? 45)) eqn:Esign.
  - intros H. apply special_inf_all_no_dot in H; [|reflexivity].
    not_dot c. exact H.
  - destruct ((strconv.byte c =? 105) || (strconv.byte c =? 73)).
    + intros H. apply special_inf_all_no_dot in H; [exact H | reflexivity].
    + destruct ((strconv.byte c =? 110) || (strconv.byte c =? 78));
        [|discriminate].
      destruct (_ =? 3)%nat eqn:E3; [|discriminate].
      intros H. apply Nat.eqb_eq in E3.
      assert (Hn : 3%nat = String.length (String c s)) by congruence.
      apply (commonPrefixLen_all_no_dot _ "nan"); [reflexivity | congruence].
Qed.

(** The digit loop passes one period at most. *)
Lemma read_digits_dots (base : Z) (s : string) (st st' : strconv.digits)
  (s' : string) :
  strconv.read_digits base st s = (st', s') ->
  (strings.Count s "."%char <=
     (if strconv.sawdot st then 0 else 1) + strings.Count s' "."%char)%nat.
Proof.
  revert st. induction s as [|c s IH]; intros st H; cbn in H.
  - injection H as _ <-. lia.
  - destruct (strconv.byte c =? 95) eqn:E95.
    { apply IH in H. cbn in H. not_dot c. exact H. }
    destruct (strconv.byte c =? 46) eqn:E46.
    { destruct (strconv.sawdot st) eqn:Edot.
      - injection H as _ <-. lia.
      - apply IH in H. cbn in H. rewrite Count_cons, byte_dot, E46. lia. }
    destruct (strconv.is_digit c) eqn:Ed.
    { destruct (_ && _); apply IH in H; cbn in H;
        rewrite Count_cons, byte_dot, E46; exact H. }
    destruct (_ && _).
    { apply IH in H. cbn in H. rewrite Count_cons, byte_dot, E46. exact H. }
    injection H as _ <-. lia.
Qed.

(** The exponent has none. *)
Lemma read_exponent_dots (s : string) (e e' : Z) (us us' : bool) (s' : string) :
  strconv.read_exponent e us s = (e', us', s') ->
  strings.Count s "."%char = strings.Count s' "."%char.
Proof.
  revert e us. induction s as [|c s IH]; intros e us H; cbn in H.
  - injection H as _ _ <-. reflexivity.
  - destruct (strconv.byte c =? 95) eqn:E95.
    { apply IH in H. not_dot c. exact H. }
    destruct (strconv.is_digit c) eqn:Ed.
    { apply IH in H. not_dot c. exact H. }
    injection H as _ _ <-. reflexivity.
Qed.

Lemma finish_number_rest (all : string) (neg hex : bool) (st : strconv.digits)
  (dp : Z) (us : bool) (unread : string) (n : strconv.number) :
  strconv.finish_number all neg hex st dp us unread = Some n ->
  strconv.rest n = unread.
Proof.
  unfold strconv.finish_number. destruct (_ && _); [discriminate|].
  intros H. injection H as <-. reflexivity.
Qed.

Lemma read_tail_dots (all : string) (neg hex : bool) (st : strconv.digits)
  (s : string) (n : strconv.number) :
  strconv.read_tail all neg hex st s = Some n ->
  strings.Count s "."%char = strings.Count (strconv.rest n) "."%char.
Proof.
  unfold strconv.read_tail.
  set (plain := if hex then None else _).
  assert (Hplain : plain = Some n ->
                   strings.Count s "."%char
                   = strings.Count (strconv.rest n) "."%char).
  { subst plain. destruct hex; [discriminate|]. intros H.
    apply finish_number_rest in H. congruence. }
  clearbody plain.
  destruct s as [|c s1]; [exact Hplain|].
  destruct (strconv.lower c =? _) eqn:Eexp; [|exact Hplain].
  destruct s1 as [|c1 s2]; [discriminate|].
  assert (Hc : strings.Count (String c (String c1 s2)) "."%char =
               strings.Count (String c1 s2) "."%char).
  { rewrite (Count_cons c), byte_dot.
    destruct (strconv.byte c =? 46) eqn:E; [|reflexivity].
    apply Z.eqb_eq in E. unfold strconv.lower in Eexp. rewrite E in Eexp.
    destruct hex; vm_compute in Eexp; discriminate. }
  rewrite Hc. clear Hc Hplain.
  destruct ((strconv.byte c1 =? 43) || (strconv.byte c1 =? 45)) eqn:Esign.
  - destruct s2 as [|c3 s4]; [discriminate|].
    destruct (strconv.is_digit c3) eqn:Ed; [|discriminate].
    destruct (strconv.read_exponent _ _ _) as [[e us] unread] eqn:Ee.
    intros H. apply finish_number_rest in H. apply read_exponent_dots in Ee.
    rewrite H, <- Ee. not_dot c1. reflexivity.
  - destruct (strconv.is_digit c1) eqn:Ed; [|discriminate].
    destruct (strconv.read_exponent _ _ _) as [[e us] unread] eqn:Ee.
    intros H. apply finish_number_rest in H. apply read_exponent_dots in Ee.
    rewrite H, <- Ee. reflexivity.
Qed.

Lemma readFloat_dots (s : string) (n : strconv.number) :
  strconv.readFloat s = Some n ->
  (strings.Count s "."%char <= 1 + strings.Count (strconv.rest n) "."%char)%nat.
Proof.
  destruct s as [|c s']; [discriminate|]. unfold strconv.readFloat.
  set (s1 := if (strconv.byte c =? 43) || (strconv.byte c =? 45)
             then s' else String c s').
  assert (H1 : strings.Count (String c s') "."%char = strings.Count s1 "."%char).
  { subst s1. destruct (_ || _) eqn:Esign; [|reflexivity]. not_dot c. reflexivity. }
  rewrite H1. clearbody s1. clear H1.
  set (hex := match s1 with
              | String c0 (String c1 (String _ _)) =>
                  (strconv.byte c0 =? 48) && (strconv.lower c1 =? 120)
              | _ => false
              end).
  set (s2 := match s1 with
             | String _ (String _ s2) => if hex then s2 else s1
             | _ => s1
             end).
  assert (H2 : strings.Count s1 "."%char = strings.Count s2 "."%char).
  { subst s2 hex. destruct s1 as [|c0 [|c1 [|c2 s2]]]; try reflexivity.
    destruct (_ && _) eqn:E; [|reflexivity].
    apply andb_true_iff in E as [E0 E1].
    not_dot c0. not_dot c1. reflexivity. }
  rewrite H2. clearbody s2. clearbody hex. clear H2.
  destruct (strconv.read_digits _ _ s2) as [st s3] eqn:Ed.
  apply read_digits_dots in Ed. cbn in Ed.
  destruct (strconv.sawdigits st); [|discriminate].
  intros H. apply read_tail_dots in H. lia.
Qed.

(** A text with two periods or more is not a literal. *)
Lemma ParseFloat_two_periods (s : string) :
  (2 <= strings.Count s "."%char)%nat -> strconv.ParseFloat s = None.
Proof.
  intros Hdots. unfold strconv.ParseFloat.
  destruct (strconv.special s) as [[f n]|] eqn:Es.
  - destruct (n =? String.length s)%nat eqn:En; [|reflexivity].
    apply Nat.eqb_eq in En. subst n. apply special_all_no_dot in Es. lia.
  - destruct (strconv.readFloat s) as [n|] eqn:Er; [|reflexivity].
    apply readFloat_dots in Er.
    destruct (strconv.rest n); [cbn in Er; lia | reflexivity].
Qed.

(** The loop body takes the [continue] exactly when the parser
    rejects the text; a record that is folded changes the table. *)
Lemma analyzeValute_skip_iff (ParseFloat : string -> option float64)
  (date : string) (valute : Valute) (w : world) :
  analyzeValute ParseFloat date valute w =
    {| globalStats := globalStats w;
       stdout := stdout w
                 ++ [ConvertError (Valute.CharCode valute) (valueStr valute)] |}
  <-> ParseFloat (valueStr valute) = None.
Proof.
  split; [|apply analyzeValute_skip].
  unfold analyzeValute. destruct (ParseFloat (valueStr valute)); [|reflexivity].
  intros H. apply (f_equal (fun w => length (stdout w))) in H.
  destruct (globalStats w !! Valute.CharCode valute); cbn in H;
    rewrite length_app in H; cbn in H; lia.
Qed.

Lemma incr_changes (n : Z) : Int.incr n <> n.
Proof.
  unfold Int.incr, Int.add, Int.wrap. intros H.
  assert (Hr : Int.min_int <= n <= Int.max_int).
  { rewrite <- H. unfold Int.min_int, Int.max_int, Int.bits.
    pose proof (Z.mod_pos_bound (n + 1 - - 2 ^ (64 - 1)) (2 ^ 64)). lia. }
  revert H. apply incr_neq. exact Hr.
Qed.

Lemma analyzeValute_folded_changes (ParseFloat : string -> option float64)
  (date : string) (valute : Valute) (w : world) (v : float64) :
  ParseFloat (valueStr valute) = Some v ->
  globalStats (analyzeValute ParseFloat date valute w) <> globalStats w.
Proof.
  intros Hv H.
  apply (f_equal (fun m => entry_count (m !! Valute.CharCode valute))) in H.
  rewrite analyzeValute_lookup, decide_True in H by reflexivity.
  unfold fold_entry, parsed in H. cbn [snd fst] in H. rewrite Hv in H.
  destruct (globalStats w !! Valute.CharCode valute) as [stats|]; cbn in H.
  - revert H. apply incr_changes.
  - discriminate.
Qed.

(** ** The second copy

    The second copy of the program does what the first does, less the
    codes and the nominal: its table and its lines are those of the
    first with these fields forgotten, fold after fold and through the
    closing loop. *)

Lemma second_copy_analyzeValute (ParseFloat : string -> option float64)
  (date : string) (valute : Valute) (w : world) :
  SecondCopy.analyzeValute ParseFloat date valute (forget_world w) =
    forget_world (analyzeValute ParseFloat date valute w).
Proof.
  unfold SecondCopy.analyzeValute, analyzeValute, forget_world.
  cbn [SecondCopy.globalStats SecondCopy.stdout].
  destruct (ParseFloat (valueStr valute)) as [value|].
  - rewrite lookup_fmap.
    destruct (globalStats w !! Valute.CharCode valute) as [stats|];
      cbn [fmap option_fmap option_map globalStats stdout];
      rewrite fmap_insert; reflexivity.
  - cbn [globalStats stdout]. rewrite fmap_app. reflexivity.
Qed.

Lemma second_copy_analyzeData (ParseFloat : string -> option float64)
  (valCurs : ValCurs) (w : world) :
  SecondCopy.analyzeData ParseFloat valCurs (forget_world w) =
    forget_world (analyzeData ParseFloat valCurs w).
Proof.
  unfold SecondCopy.analyzeData, analyzeData. generalize (Valutes valCurs).
  intros l. revert w. induction l as [|v l IH]; intros w; [reflexivity|].
  cbn [fold_left]. rewrite second_copy_analyzeValute. apply IH.
Qed.

Lemma second_copy_finalize (m : gmap string CurrencyStats) :
  SecondCopy.finalize (forget <$> m) = forget <$> finalize m.
Proof.
  unfold SecondCopy.finalize, finalize. rewrite <- !map_fmap_compose.
  apply map_fmap_ext. intros c stats _. reflexivity.
Qed.

Lemma second_copy_stats_line (stats : CurrencyStats) :
  forget_event (stats_line stats) = SecondCopy.stats_line (forget stats).
Proof. reflexivity. Qed.

(** ** What the closing loop yields *)

Lemma second_copy_world0_forget : second_copy_world0 = forget_world world0.
Proof.
  unfold second_copy_world0, forget_world. cbn. rewrite fmap_empty. reflexivity.
Qed.


Lemma second_copy_report_forget (m : gmap string CurrencyStats) :
  second_copy_report (forget <$> m) = forget_event <$> report m.
Proof.
  unfold second_copy_report, report.
  rewrite second_copy_finalize, map_to_list_fmap, <- !list_fmap_compose.
  apply list_fmap_ext. intros i [c stats] _. reflexivity.
Qed.

Section Yield.

Variable ParseFloat : string -> option float64.


End Yield.

(** * The program with [strconv.ParseFloat] *)

(** C9. Every comma of the text becomes a period, not the first alone:
    a text with two commas or more is handed to the parser with no
    comma and two periods or more, the parser rejects it, and the
    record is skipped, the table left as it was.  So it goes for
    [1,234,56]. *)
Theorem many_commas_rejected :
  (forall valute : Valute,
      (2 <= strings.Count (Valute.Value valute) ","%char)%nat ->
      strings.Count (valueStr valute) ","%char = 0%nat
      /\ (2 <= strings.Count (valueStr valute) "."%char)%nat
      /\ strconv.ParseFloat (valueStr valute) = None
      /\ forall (date : string) (w : world),
           analyzeValute strconv.ParseFloat date valute w =
             {| globalStats := globalStats w;
                stdout := stdout w
                          ++ [ConvertError (Valute.CharCode valute)
                                (valueStr valute)] |})
  /\ valueStr (usd "1,234,56") = "1.234.56"
  /\ strconv.ParseFloat "1.234.56" = None.
Proof.
  split; [|split; reflexivity].
  intros valute Hcommas.
  destruct (Replace_commas (Valute.Value valute)) as [H0 Hdots].
  fold (valueStr valute) in H0, Hdots.
  assert (H2 : (2 <= strings.Count (valueStr valute) "."%char)%nat) by lia.
  pose proof (ParseFloat_two_periods _ H2) as Hnone.
  repeat split; try assumption.
  intros date w. apply analyzeValute_skip. exact Hnone.
Qed.

(** C10. A record is skipped exactly when the parser rejects its text
    with the commas made periods.  The parser takes [NaN], [Inf] and
    [1e2] for numbers, so a record with one of these texts is not
    skipped: its value opens the aggregate of its currency or goes
    through the sum, the count and the two tests against the extremes
    of the aggregate that is there, and no line is printed. *)
Theorem skip_iff_parser_rejects :
  (forall (date : string) (valute : Valute) (w : world),
      analyzeValute strconv.ParseFloat date valute w =
        {| globalStats := globalStats w;
           stdout := stdout w
                     ++ [ConvertError (Valute.CharCode valute)
                           (valueStr valute)] |}
      <-> strconv.ParseFloat (valueStr valute) = None)
  /\ (forall (date : string) (valute : Valute) (w : world) (v : float64),
        strconv.ParseFloat (valueStr valute) = Some v ->
        globalStats (analyzeValute strconv.ParseFloat date valute w)
        <> globalStats w)
  /\ strconv.ParseFloat "NaN" = Some Float64.NaN
  /\ strconv.ParseFloat "Inf" = Some (Float64.Inf 1)
  /\ strconv.ParseFloat "1e2" = Some (Float64.of_int 100)
  /\ (forall (date : string) (valute : Valute) (w : world),
        In (Valute.Value valute) ["NaN"; "Inf"; "1e2"] ->
        exists v,
          strconv.ParseFloat (valueStr valute) = Some v
          /\ globalStats (analyzeValute strconv.ParseFloat date valute w)
               !! Valute.CharCode valute =
             Some match globalStats w !! Valute.CharCode valute with
                  | Some stats => update_stats date v stats
                  | None => new_stats date valute v
                  end
          /\ stdout (analyzeValute strconv.ParseFloat date valute w) = stdout w).
Proof.
  split; [intros; apply analyzeValute_skip_iff|].
  split; [intros date valute w v; apply analyzeValute_folded_changes|].
  do 3 (split; [reflexivity|]).
  intros date valute w Hin.
  assert (Hv : exists v, strconv.ParseFloat (valueStr valute) = Some v).
  { unfold valueStr.
    destruct Hin as [<-|[<-|[<-|[]]]]; eexists; vm_compute; reflexivity. }
  destruct Hv as [v Hv]. exists v. split; [exact Hv|].
  destruct (globalStats w !! Valute.CharCode valute) as [stats|] eqn:Hs.
  - rewrite (analyzeValute_existing _ _ _ _ _ _ Hv Hs). cbn.
    rewrite lookup_insert_eq. split; reflexivity.
  - rewrite (analyzeValute_new _ _ _ _ _ Hv Hs). cbn.
    rewrite lookup_insert_eq. split; reflexivity.
Qed.

(** C2 as first stated fails: a first record of text [NaN] makes both
    extremes NaN, the two strict tests then never hold, and the 75.5 of
    the next day is folded while neither [MinValue <= 75.5] nor
    [75.5 <= MaxValue] holds. *)
Lemma extremes_miss_value_after_NaN :
  ~ (forall (rs : list (string * Valute)) (c : string) (stats : CurrencyStats)
            (r : string * Valute) (v : float64),
        globalStats (fold_records strconv.ParseFloat rs world0) !! c = Some stats ->
        In r (observations strconv.ParseFloat c rs) ->
        parsed strconv.ParseFloat r = Some v ->
        Float64.leb (MinValue stats) v = true
        /\ Float64.leb v (MaxValue stats) = true).
Proof.
  intros H.
  specialize (H [("2024-01-01", usd "NaN"); ("2024-01-02", usd "75,5")] "USD").
  edestruct (fun stats => H stats ("2024-01-02", usd "75,5")) as [Hmin _].
  - vm_compute. reflexivity.
  - vm_compute. right. left. reflexivity.
  - vm_compute. reflexivity.
  - vm_compute in Hmin. discriminate.
Qed.

(** * The scenarios *)

(** Scenario D, and the fold into an aggregate that is there: the
    second of two days at 75,0 moves neither date. *)
Lemma fold_existing_aggregate_witness :
  let w1 := analyzeValute strconv.ParseFloat "2024-01-01" (usd "75,0") world0 in
  let w2 := analyzeValute strconv.ParseFloat "2024-01-02" (usd "75,0") w1 in
  (exists stats',
      globalStats w2 !! "USD" = Some stats'
      /\ Count stats' = 2 /\ MaxDate stats' = "2024-01-01"
      /\ MinDate stats' = "2024-01-01")
  /\ (exists s2, globalStats w2 !! "USD" = Some s2
                 /\ MaxDate s2 = "2024-01-01" /\ MinDate s2 = "2024-01-01").
Proof.
  intros w1 w2. split.
  - destruct (proj1 (fold_existing_aggregate strconv.ParseFloat)
                "2024-01-02" (usd "75,0") w1
                (new_stats "2024-01-01" (usd "75,0") (Float64.of_decimal false 750 (-1)))
                (Float64.of_decimal false 750 (-1)))
      as (stats' & Hl & _ & _ & Hcount & _ & _ & _ & _ & Hmax & Hmin).
    + vm_compute. reflexivity.
    + vm_compute. reflexivity.
    + exists stats'. split; [exact Hl|]. split.
      * rewrite Hcount; [reflexivity | vm_compute; split; [discriminate | reflexivity]].
      * split; [rewrite Hmax | rewrite Hmin]; vm_compute; reflexivity.
  - destruct (proj2 (fold_existing_aggregate strconv.ParseFloat)
                "2024-01-01" "2024-01-02" (usd "75,0") (usd "75,0") world0
                (Float64.of_decimal false 750 (-1))
                (Float64.of_decimal false 750 (-1)))
      as (s1 & s2 & _ & H2 & _ & _ & Hfirst); try (vm_compute; reflexivity).
    exists s2. split; [exact H2|]. apply Hfirst. vm_compute. reflexivity.
Defined.

(** Scenario A: no NaN among 75,5, 76,2 and 74,0, and the extremes
    74.0 and 76.2 enclose the three. *)
Lemma extremes_enclose_folded_values_witness :
  exists stats,
    globalStats (fold_records strconv.ParseFloat three_days world0) !! "USD"
    = Some stats
    /\ MinDate stats = "2024-01-03" /\ MaxDate stats = "2024-01-02"
    /\ Float64.leb (MinValue stats) (Float64.of_decimal false 755 (-1)) = true
    /\ Float64.leb (Float64.of_decimal false 755 (-1)) (MaxValue stats) = true.
Proof.
  eexists. split; [vm_compute; reflexivity|].
  split; [reflexivity|]. split; [reflexivity|].
  apply (extremes_enclose_folded_values strconv.ParseFloat three_days "USD" _)
    with (r := ("2024-01-01", usd "75,5")).
  - intros r v Hin Hv. vm_compute in Hin.
    destruct Hin as [<-|[<-|[<-|[]]]]; vm_compute in Hv; injection Hv as <-;
      reflexivity.
  - vm_compute. reflexivity.
  - vm_compute. left. reflexivity.
  - vm_compute. reflexivity.
Defined.

(** Scenario B: the euro at [abc] leaves no aggregate and one line. *)
Lemma unparseable_record_skipped_witness :
  globalStats (analyzeValute strconv.ParseFloat "2024-01-01" (eur "abc") world0)
    !! "EUR" = None
  /\ stdout (analyzeValute strconv.ParseFloat "2024-01-01" (eur "abc") world0)
     = [ConvertError "EUR" "abc"]
  /\ globalStats
       (run strconv.ParseFloat
          [{| Date := "2024-01-01";
              Valutes := [usd "75,5"] ++ eur "abc" :: [usd "76,2"] |}] world0)
     = globalStats
         (run strconv.ParseFloat
            [{| Date := "2024-01-01"; Valutes := [usd "75,5"] ++ [usd "76,2"] |}]
            world0).
Proof.
  destruct (unparseable_record_skipped strconv.ParseFloat "2024-01-01" (eur "abc"))
    as (Hone & _ & Hrun); [vm_compute; reflexivity|].
  destruct (Hone world0) as [Hstats Hout].
  split; [rewrite Hstats; reflexivity|]. split; [rewrite Hout; reflexivity|].
  exact (Hrun [usd "75,5"] [usd "76,2"] [] [] world0).
Defined.

(** Scenario C: the yen at 0,5, alone. *)
Lemma fold_new_aggregate_witness :
  exists stats,
    globalStats (analyzeValute strconv.ParseFloat "2024-01-01" (jpy "0,5") world0)
      !! "JPY" = Some stats
    /\ MinValue stats = Float64.of_decimal false 5 (-1)
    /\ MaxValue stats = Float64.of_decimal false 5 (-1)
    /\ MinDate stats = "2024-01-01" /\ MaxDate stats = "2024-01-01"
    /\ TotalValue stats = Float64.of_decimal false 5 (-1) /\ Count stats = 1.
Proof.
  apply (fold_new_aggregate strconv.ParseFloat "2024-01-01" (jpy "0,5") world0).
  - vm_compute. reflexivity.
  - reflexivity.
Defined.

(** Scenarios A and B together: three dollars counted, no euro. *)
Lemma count_is_number_of_parseable_records_witness :
  (exists stats,
      globalStats
        (fold_records strconv.ParseFloat
           (("2024-01-01", eur "abc") :: three_days) world0) !! "USD" = Some stats
      /\ Count stats = 3)
  /\ globalStats
       (fold_records strconv.ParseFloat
          (("2024-01-01", eur "abc") :: three_days) world0) !! "EUR" = None.
Proof.
  pose proof (proj1 (count_is_number_of_parseable_records strconv.ParseFloat)
                (("2024-01-01", eur "abc") :: three_days)) as H.
  split.
  - specialize (H "USD"). cbv zeta in H.
    destruct (globalStats _ !! "USD") as [stats|] eqn:E.
    + exists stats. split; [reflexivity|].
      destruct H as (_ & _ & H). rewrite H; vm_compute; [reflexivity | discriminate].
    + vm_compute in H. discriminate.
  - specialize (H "EUR"). cbv zeta in H.
    destruct (globalStats _ !! "EUR") as [stats|] eqn:E; [|reflexivity].
    destruct H as [H _]. vm_compute in H. discriminate.
Defined.

(** Scenario A: the average of the three days, and a positive count. *)
Lemma finalize_average_idempotent_witness :
  exists stats,
    globalStats (fold_records strconv.ParseFloat three_days world0) !! "USD"
    = Some stats
    /\ 0 < Count stats
    /\ Average (set_average stats) =
         Float64.div (TotalValue stats) (Float64.of_int (Count stats)).
Proof.
  eexists. split; [vm_compute; reflexivity|].
  destruct (finalize_average_idempotent strconv.ParseFloat)
    as (_ & Havg & _ & Hpos).
  split.
  - refine (Hpos three_days "USD" _ _ _).
    + vm_compute. reflexivity.
    + vm_compute. discriminate.
  - apply Havg.
Defined.

(** The euro moved in front of the dollars, or between them. *)
Lemma order_across_currencies_irrelevant_witness :
  globalStats
    (fold_records strconv.ParseFloat
       [("2024-01-01", usd "75,5"); ("2024-01-01", eur "81,3");
        ("2024-01-02", usd "76,2")] world0) !! "USD"
  = globalStats
      (fold_records strconv.ParseFloat
         [("2024-01-01", eur "81,3"); ("2024-01-01", usd "75,5");
          ("2024-01-02", usd "76,2")] world0) !! "USD".
Proof.
  refine (proj1 (order_across_currencies_irrelevant strconv.ParseFloat
                   [("2024-01-01", usd "75,5"); ("2024-01-01", eur "81,3");
                    ("2024-01-02", usd "76,2")]
                   [("2024-01-01", eur "81,3"); ("2024-01-01", usd "75,5");
                    ("2024-01-02", usd "76,2")] world0 _ _ "USD")).
  - apply perm_swap.
  - intros c. unfold of_currency. cbn.
    destruct (decide ("USD" = c)) as [<-|Husd]; [reflexivity|].
    destruct (decide ("EUR" = c)) as [<-|Heur]; [reflexivity|].
    rewrite !(bool_decide_eq_false_2 _ Husd), !(bool_decide_eq_false_2 _ Heur).
    reflexivity.
Defined.



(** A grouped value: two commas, two periods, no number. *)
Lemma many_commas_rejected_witness :
  strconv.ParseFloat (valueStr (usd "1,234,56")) = None
  /\ globalStats
       (analyzeValute strconv.ParseFloat "2024-01-01" (usd "1,234,56") world0)
     = ∅.
Proof.
  destruct (proj1 many_commas_rejected (usd "1,234,56"))
    as (_ & _ & Hnone & Hskip); [vm_compute; lia|].
  split; [exact Hnone|]. rewrite Hskip. reflexivity.
Defined.

(** An infinity after 75,5: the sum and the maximum are infinite, the
    count is 2. *)
Lemma skip_iff_parser_rejects_witness :
  exists v,
    strconv.ParseFloat (valueStr (usd "Inf")) = Some v
    /\ globalStats
         (analyzeValute strconv.ParseFloat "2024-01-02" (usd "Inf")
            (analyzeValute strconv.ParseFloat "2024-01-01" (usd "75,5") world0))
       !! "USD"
       = Some (update_stats "2024-01-02" v
                 (new_stats "2024-01-01" (usd "75,5")
                    (Float64.of_decimal false 755 (-1)))).
Proof.
  destruct skip_iff_parser_rejects as (_ & _ & _ & _ & _ & H).
  destruct (H "2024-01-02" (usd "Inf")
              (analyzeValute strconv.ParseFloat "2024-01-01" (usd "75,5") world0))
    as (v & Hv & Hl & _); [right; left; reflexivity|].
  exists v. split; [exact Hv|]. exact Hl.
Defined.

(** With [n = 1] in place of [-1] the second comma would stay. *)
Example replace_first_only :
  strings.Replace "1,234,56" ","%char "."%char 1 = "1.234,56"
  /\ strings.Replace "1,234,56" ","%char "."%char (-1) = "1.234.56".
Proof. split; reflexivity. Qed.

(** Scenario A, in full: the minimum 74.0 of the third day, the
    maximum 76.2 of the second, the average 75.2333... *)
Example scenario_three_days :
  finalize (globalStats (fold_records strconv.ParseFloat three_days world0))
    !! "USD"
  = Some {| MaxValue := Float64.of_decimal false 762 (-1);
            MinValue := Float64.of_decimal false 740 (-1);
            MaxDate := "2024-01-02";
            MinDate := "2024-01-03";
            TotalValue := Float64.of_decimal false 2257 (-1);
            Count := 3;
            Average := Float64.of_decimal false 7523333333333333 (-14);
            Nominal := 1;
            CurrencyName := "US Dollar";
            NumCode := "840";
            CharCode := "USD" |}.
Proof. vm_compute. reflexivity. Qed.

(** A day that did not come and a rate that is no number are printed
    and passed over; the run ends with the line of the dollar. *)
Example scenario_main :
  stdout
    (main strconv.ParseFloat
       [Fetched {| Date := "01.01.2024"; Valutes := [usd "75,5"; eur "abc"] |};
        FetchFailed "timeout";
        Fetched {| Date := "03.01.2024"; Valutes := [usd "74,5"] |}])
  = [ConvertError "EUR" "abc"; FetchError "timeout";
     StatsLine "US Dollar" "USD" "840" 1
       (Float64.of_decimal false 755 (-1)) "01.01.2024"
       (Float64.of_decimal false 745 (-1)) "03.01.2024"
       (Float64.of_int 75)].
Proof. vm_compute. reflexivity. Qed.

(** * Further properties of the aggregation *)

Lemma ltb_trans (x y z : float64) :
  Float64.ltb x y = true -> Float64.ltb y z = true -> Float64.ltb x z = true.
Proof.
  unfold Float64.ltb, SFltb. float_cases; order_cases.
Qed.

Lemma leb_ltb_trans (x y z : float64) :
  Float64.leb x y = true -> Float64.ltb y z = true -> Float64.ltb x z = true.
Proof.
  unfold Float64.leb, Float64.ltb, SFleb, SFltb. float_cases; order_cases.
Qed.

Lemma ltb_leb_trans (x y z : float64) :
  Float64.ltb x y = true -> Float64.leb y z = true -> Float64.ltb x z = true.
Proof.
  unfold Float64.leb, Float64.ltb, SFleb, SFltb. float_cases; order_cases.
Qed.

Lemma ltb_not_nan (x y : float64) :
  Float64.ltb x y = true -> Float64.is_nan x = false /\ Float64.is_nan y = false.
Proof.
  unfold Float64.ltb, SFltb. float_cases; auto.
Qed.

Lemma add_nan_r (x : float64) : Float64.add x Float64.NaN = Float64.NaN.
Proof. destruct x; reflexivity. Qed.

Lemma add_nan_l (x : float64) : Float64.add Float64.NaN x = Float64.NaN.
Proof. reflexivity. Qed.

Lemma is_nan_eq (x : float64) : Float64.is_nan x = true -> x = Float64.NaN.
Proof. destruct x; (discriminate || reflexivity). Qed.

Section MoreProperties.

Variable ParseFloat : string -> option float64.

(** X1. The sum of an aggregate is the float sum of the values folded
    for its currency, added one by one in the order of the records,
    from the first value on. *)
Theorem total_is_sum_in_order (rs : list (string * Valute)) (c : string)
  (stats : CurrencyStats) :
  globalStats (fold_records ParseFloat rs world0) !! c = Some stats ->
  exists v0 vs,
    values ParseFloat c rs = v0 :: vs
    /\ TotalValue stats = fold_left Float64.add vs v0.
Proof.
  intros Hst. pose proof (lookup_fold_records_world0 ParseFloat rs c) as H.
  unfold values.
  destruct (observations ParseFloat c rs) as [|r0 obs]; [congruence|].
  destruct H as (v0 & Hv0 & H). rewrite Hst in H.
  destruct (fold_left_entry_total ParseFloat obs (new_stats (fst r0) (snd r0) v0))
    as (stats' & Hf & Ht & _).
  rewrite Hf in H. injection H as ->.
  exists v0, (omap (parsed ParseFloat) obs). cbn [omap list_omap]. rewrite Hv0.
  split; [reflexivity | exact Ht].
Qed.

(** Where the maximum of an entry comes from, through a sequence of
    records without NaN: it stays, or it is the value of the first
    record that reaches it. *)
Lemma fold_left_entry_first_max (obs : list (string * Valute))
  (stats : CurrencyStats) :
  (forall r v, In r obs -> parsed ParseFloat r = Some v ->
               Float64.is_nan v = false) ->
  Float64.is_nan (MaxValue stats) = false ->
  exists stats',
    fold_left (fold_entry ParseFloat) obs (Some stats) = Some stats'
    /\ Float64.leb (MaxValue stats) (MaxValue stats') = true
    /\ ((MaxValue stats' = MaxValue stats /\ MaxDate stats' = MaxDate stats
         /\ forall r v, In r obs -> parsed ParseFloat r = Some v ->
                         Float64.leb v (MaxValue stats') = true)
        \/ exists before r after,
             obs = (before ++ r :: after)%list
             /\ parsed ParseFloat r = Some (MaxValue stats')
             /\ fst r = MaxDate stats'
             /\ Float64.ltb (MaxValue stats) (MaxValue stats') = true
             /\ (forall r' v', In r' before -> parsed ParseFloat r' = Some v' ->
                                Float64.ltb v' (MaxValue stats') = true)
             /\ (forall r' v', In r' after -> parsed ParseFloat r' = Some v' ->
                                Float64.leb v' (MaxValue stats') = true)).
Proof.
  revert stats. induction obs as [|r obs IH]; intros stats Hnan Hmax;
    cbn [fold_left].
  - exists stats. split; [reflexivity|]. split; [apply leb_refl, Hmax|].
    left. split; [reflexivity|]. split; [reflexivity|]. intros r v [].
  - assert (Hrest : forall r' v', In r' obs -> parsed ParseFloat r' = Some v' ->
                                  Float64.is_nan v' = false)
      by (intros r' v' Hin; apply Hnan; right; exact Hin).
    unfold fold_entry at 2. destruct (parsed ParseFloat r) as [v|] eqn:Hv.
    + assert (Hvn : Float64.is_nan v = false) by (apply (Hnan r); auto using in_eq).
      set (stats1 := update_stats (fst r) v stats).
      assert (H1 : Float64.leb v (MaxValue stats1) = true
                   /\ Float64.leb (MaxValue stats) (MaxValue stats1) = true).
      { subst stats1. cbn. destruct (Float64.ltb (MaxValue stats) v) eqn:E;
          auto using leb_refl, ltb_leb, not_ltb_leb. }
      destruct H1 as [Hv1 Hs1].
      destruct (IH stats1 Hrest (proj2 (leb_not_nan _ _ Hv1)))
        as (stats' & Hf & Hle & Hcase).
      exists stats'. split; [exact Hf|].
      split; [eapply leb_trans; eassumption|].
      destruct Hcase as [(Hx & Hd & Hall)|(before & rm & after & -> & Hrm & Hdm & Hlt & Hb & Ha)].
      * subst stats1. cbn in Hx, Hd.
        destruct (Float64.ltb (MaxValue stats) v) eqn:E.
        -- right. exists [], r, obs. rewrite Hx, Hd.
           split; [reflexivity|]. split; [exact Hv|]. split; [reflexivity|].
           split; [exact E|]. split; [intros r' v' []|].
           intros r' v' Hin Hv'. rewrite <- Hx. eapply Hall; eassumption.
        -- left. split; [exact Hx|]. split; [exact Hd|].
           intros r' v' [<-|Hin] Hv'.
           ++ rewrite Hv in Hv'. injection Hv' as <-. rewrite Hx.
              apply not_ltb_leb; assumption.
           ++ eapply Hall; eassumption.
      * right. exists (r :: before), rm, after.
        split; [reflexivity|]. split; [exact Hrm|]. split; [exact Hdm|].
        split; [eapply leb_ltb_trans; eassumption|]. split; [|exact Ha].
        intros r' v' [<-|Hin] Hv'.
        -- rewrite Hv in Hv'. injection Hv' as <-.
           eapply leb_ltb_trans; eassumption.
        -- eapply Hb; eassumption.
    + destruct (IH stats Hrest Hmax) as (stats' & Hf & Hle & Hcase).
      exists stats'. split; [exact Hf|]. split; [exact Hle|].
      destruct Hcase as [(Hx & Hd & Hall)|(before & rm & after & -> & Hrm & Hdm & Hlt & Hb & Ha)].
      * left. split; [exact Hx|]. split; [exact Hd|].
        intros r' v' [<-|Hin] Hv'; [congruence | eapply Hall; eassumption].
      * right. exists (r :: before), rm, after.
        split; [reflexivity|]. split; [exact Hrm|]. split; [exact Hdm|].
        split; [exact Hlt|]. split; [|exact Ha].
        intros r' v' [<-|Hin] Hv'; [congruence | eapply Hb; eassumption].
Qed.

(** The same for the minimum. *)
Lemma fold_left_entry_first_min (obs : list (string * Valute))
  (stats : CurrencyStats) :
  (forall r v, In r obs -> parsed ParseFloat r = Some v ->
               Float64.is_nan v = false) ->
  Float64.is_nan (MinValue stats) = false ->
  exists stats',
    fold_left (fold_entry ParseFloat) obs (Some stats) = Some stats'
    /\ Float64.leb (MinValue stats') (MinValue stats) = true
    /\ ((MinValue stats' = MinValue stats /\ MinDate stats' = MinDate stats
         /\ forall r v, In r obs -> parsed ParseFloat r = Some v ->
                         Float64.leb (MinValue stats') v = true)
        \/ exists before r after,
             obs = (before ++ r :: after)%list
             /\ parsed ParseFloat r = Some (MinValue stats')
             /\ fst r = MinDate stats'
             /\ Float64.ltb (MinValue stats') (MinValue stats) = true
             /\ (forall r' v', In r' before -> parsed ParseFloat r' = Some v' ->
                                Float64.ltb (MinValue stats') v' = true)
             /\ (forall r' v', In r' after -> parsed ParseFloat r' = Some v' ->
                                Float64.leb (MinValue stats') v' = true)).
Proof.
  revert stats. induction obs as [|r obs IH]; intros stats Hnan Hmin;
    cbn [fold_left].
  - exists stats. split; [reflexivity|]. split; [apply leb_refl, Hmin|].
    left. split; [reflexivity|]. split; [reflexivity|]. intros r v [].
  - assert (Hrest : forall r' v', In r' obs -> parsed ParseFloat r' = Some v' ->
                                  Float64.is_nan v' = false)
      by (intros r' v' Hin; apply Hnan; right; exact Hin).
    unfold fold_entry at 2. destruct (parsed ParseFloat r) as [v|] eqn:Hv.
    + assert (Hvn : Float64.is_nan v = false) by (apply (Hnan r); auto using in_eq).
      set (stats1 := update_stats (fst r) v stats).
      assert (H1 : Float64.leb (MinValue stats1) v = true
                   /\ Float64.leb (MinValue stats1) (MinValue stats) = true).
      { subst stats1. cbn. destruct (Float64.ltb v (MinValue stats)) eqn:E;
          auto using leb_refl, ltb_leb, not_ltb_leb. }
      destruct H1 as [Hv1 Hs1].
      destruct (IH stats1 Hrest (proj1 (leb_not_nan _ _ Hv1)))
        as (stats' & Hf & Hle & Hcase).
      exists stats'. split; [exact Hf|].
      split; [eapply leb_trans; eassumption|].
      destruct Hcase as [(Hx & Hd & Hall)|(before & rm & after & -> & Hrm & Hdm & Hlt & Hb & Ha)].
      * subst stats1. cbn in Hx, Hd.
        destruct (Float64.ltb v (MinValue stats)) eqn:E.
        -- right. exists [], r, obs. rewrite Hx, Hd.
           split; [reflexivity|]. split; [exact Hv|]. split; [reflexivity|].
           split; [exact E|]. split; [intros r' v' []|].
           intros r' v' Hin Hv'. rewrite <- Hx. eapply Hall; eassumption.
        -- left. split; [exact Hx|]. split; [exact Hd|].
           intros r' v' [<-|Hin] Hv'.
           ++ rewrite Hv in Hv'. injection Hv' as <-. rewrite Hx.
              apply not_ltb_leb; assumption.
           ++ eapply Hall; eassumption.
      * right. exists (r :: before), rm, after.
        split; [reflexivity|]. split; [exact Hrm|]. split; [exact Hdm|].
        split; [eapply ltb_leb_trans; eassumption|]. split; [|exact Ha].
        intros r' v' [<-|Hin] Hv'.
        -- rewrite Hv in Hv'. injection Hv' as <-.
           eapply ltb_leb_trans; eassumption.
        -- eapply Hb; eassumption.
    + destruct (IH stats Hrest Hmin) as (stats' & Hf & Hle & Hcase).
      exists stats'. split; [exact Hf|]. split; [exact Hle|].
      destruct Hcase as [(Hx & Hd & Hall)|(before & rm & after & -> & Hrm & Hdm & Hlt & Hb & Ha)].
      * left. split; [exact Hx|]. split; [exact Hd|].
        intros r' v' [<-|Hin] Hv'; [congruence | eapply Hall; eassumption].
      * right. exists (r :: before), rm, after.
        split; [reflexivity|]. split; [exact Hrm|]. split; [exact Hdm|].
        split; [exact Hlt|]. split; [|exact Ha].
        intros r' v' [<-|Hin] Hv'; [congruence | eapply Hb; eassumption].
Qed.

(** X2. In a run where no value folded for a currency is a NaN, the
    date of the maximum is the date of the first record of the
    currency that reaches the maximum: every value folded before it is
    strictly less, every value folded after it is less or equal.
    Likewise the date of the minimum. *)
Theorem extreme_dates_are_first_occurrences (rs : list (string * Valute))
  (c : string) (stats : CurrencyStats) :
  (forall r v, In r (observations ParseFloat c rs) ->
               parsed ParseFloat r = Some v -> Float64.is_nan v = false) ->
  globalStats (fold_records ParseFloat rs world0) !! c = Some stats ->
  (exists before r after,
      observations ParseFloat c rs = (before ++ r :: after)%list
      /\ parsed ParseFloat r = Some (MaxValue stats)
      /\ fst r = MaxDate stats
      /\ (forall r' v', In r' before -> parsed ParseFloat r' = Some v' ->
                         Float64.ltb v' (MaxValue stats) = true)
      /\ (forall r' v', In r' after -> parsed ParseFloat r' = Some v' ->
                         Float64.leb v' (MaxValue stats) = true))
  /\ (exists before r after,
        observations ParseFloat c rs = (before ++ r :: after)%list
        /\ parsed ParseFloat r = Some (MinValue stats)
        /\ fst r = MinDate stats
        /\ (forall r' v', In r' before -> parsed ParseFloat r' = Some v' ->
                           Float64.ltb (MinValue stats) v' = true)
        /\ (forall r' v', In r' after -> parsed ParseFloat r' = Some v' ->
                           Float64.leb (MinValue stats) v' = true)).
Proof.
  intros Hnan Hst.
  pose proof (lookup_fold_records_world0 ParseFloat rs c) as H.
  destruct (observations ParseFloat c rs) as [|r0 obs]; [congruence|].
  destruct H as (v0 & Hv0 & H). rewrite Hst in H.
  assert (Hn0 : Float64.is_nan v0 = false) by (apply (Hnan r0); auto using in_eq).
  assert (Hrest : forall r v, In r obs -> parsed ParseFloat r = Some v ->
                              Float64.is_nan v = false)
    by (intros r v Hin; apply Hnan; right; exact Hin).
  split.
  - destruct (fold_left_entry_first_max obs (new_stats (fst r0) (snd r0) v0)
                Hrest Hn0) as (stats' & Hf & _ & Hcase).
    rewrite Hf in H. injection H as ->.
    destruct Hcase as [(Hx & Hd & Hall)|(before & rm & after & -> & Hrm & Hdm & Hlt & Hb & Ha)].
    + exists [], r0, obs. cbn in Hx, Hd. rewrite Hx, Hd.
      split; [reflexivity|]. split; [exact Hv0|]. split; [reflexivity|].
      split; [intros r' v' []|]. rewrite <- Hx. exact Hall.
    + exists (r0 :: before), rm, after.
      split; [reflexivity|]. split; [exact Hrm|]. split; [exact Hdm|].
      split; [|exact Ha].
      intros r' v' [<-|Hin] Hv'; [|eapply Hb; eassumption].
      rewrite Hv0 in Hv'. injection Hv' as <-. exact Hlt.
  - destruct (fold_left_entry_first_min obs (new_stats (fst r0) (snd r0) v0)
                Hrest Hn0) as (stats' & Hf & _ & Hcase).
    rewrite Hf in H. injection H as ->.
    destruct Hcase as [(Hx & Hd & Hall)|(before & rm & after & -> & Hrm & Hdm & Hlt & Hb & Ha)].
    + exists [], r0, obs. cbn in Hx, Hd. rewrite Hx, Hd.
      split; [reflexivity|]. split; [exact Hv0|]. split; [reflexivity|].
      split; [intros r' v' []|]. rewrite <- Hx. exact Hall.
    + exists (r0 :: before), rm, after.
      split; [reflexivity|]. split; [exact Hrm|]. split; [exact Hdm|].
      split; [|exact Ha].
      intros r' v' [<-|Hin] Hv'; [|eapply Hb; eassumption].
      rewrite Hv0 in Hv'. injection Hv' as <-. exact Hlt.
Qed.

(** Extremes that are NaN stay, with their dates. *)
Lemma fold_left_entry_nan_extremes (obs : list (string * Valute))
  (stats : CurrencyStats) :
  MaxValue stats = Float64.NaN -> MinValue stats = Float64.NaN ->
  exists stats',
    fold_left (fold_entry ParseFloat) obs (Some stats) = Some stats'
    /\ MaxValue stats' = Float64.NaN /\ MinValue stats' = Float64.NaN
    /\ MaxDate stats' = MaxDate stats /\ MinDate stats' = MinDate stats.
Proof.
  revert stats. induction obs as [|r obs IH]; intros stats Hmax Hmin;
    cbn [fold_left].
  - exists stats. auto.
  - unfold fold_entry at 2.
    destruct (parsed ParseFloat r) as [v|]; [|apply IH; assumption].
    destruct (IH (update_stats (fst r) v stats))
      as (stats' & -> & Hx & Hn & Hdx & Hdn).
    + cbn. rewrite Hmax, ltb_nan_l. reflexivity.
    + cbn. rewrite Hmin, ltb_nan_r. reflexivity.
    + exists stats'. split; [reflexivity|]. split; [exact Hx|].
      split; [exact Hn|]. rewrite Hdx, Hdn. cbn.
      rewrite Hmax, Hmin, ltb_nan_l, ltb_nan_r. split; reflexivity.
Qed.

(** X3. When the first value folded for a currency is a NaN, both
    extremes of its aggregate are NaN and both dates are the date of
    that first record, whatever is folded afterwards. *)
Theorem nan_first_value_fixes_extremes (rs : list (string * Valute))
  (c : string) (r0 : string * Valute) (obs : list (string * Valute))
  (stats : CurrencyStats) :
  observations ParseFloat c rs = r0 :: obs ->
  parsed ParseFloat r0 = Some Float64.NaN ->
  globalStats (fold_records ParseFloat rs world0) !! c = Some stats ->
  MaxValue stats = Float64.NaN /\ MinValue stats = Float64.NaN
  /\ MaxDate stats = fst r0 /\ MinDate stats = fst r0.
Proof.
  intros Hobs Hnan Hst.
  pose proof (lookup_fold_records_world0 ParseFloat rs c) as H.
  rewrite Hobs in H. destruct H as (v0 & Hv0 & H).
  rewrite Hnan in Hv0. injection Hv0 as <-. rewrite Hst in H.
  destruct (fold_left_entry_nan_extremes obs
              (new_stats (fst r0) (snd r0) Float64.NaN) eq_refl eq_refl)
    as (stats' & Hf & Hx & Hn & Hdx & Hdn).
  rewrite Hf in H. injection H as ->. auto.
Qed.

Lemma fold_left_add_nan (vs : list float64) :
  fold_left Float64.add vs Float64.NaN = Float64.NaN.
Proof. induction vs as [|v vs IH]; [reflexivity | exact IH]. Qed.

Lemma fold_left_add_In_nan (vs : list float64) (v0 : float64) :
  In Float64.NaN (v0 :: vs) -> fold_left Float64.add vs v0 = Float64.NaN.
Proof.
  revert v0. induction vs as [|v vs IH]; intros v0 [Hin|Hin].
  - exact Hin.
  - destruct Hin.
  - subst v0. apply fold_left_add_nan.
  - cbn [fold_left]. apply IH. destruct Hin as [->|Hin].
    + left. apply add_nan_r.
    + right. exact Hin.
Qed.

(** X4. When one of the values folded for a currency is a NaN, the sum
    of its aggregate is NaN, and so is the average the closing loop
    gives it. *)
Theorem nan_value_makes_average_nan (rs : list (string * Valute))
  (c : string) (r : string * Valute) (stats : CurrencyStats) :
  In r (observations ParseFloat c rs) ->
  parsed ParseFloat r = Some Float64.NaN ->
  globalStats (fold_records ParseFloat rs world0) !! c = Some stats ->
  TotalValue stats = Float64.NaN
  /\ exists stats',
       finalize (globalStats (fold_records ParseFloat rs world0)) !! c
       = Some stats'
       /\ Average stats' = Float64.NaN.
Proof.
  intros Hin Hnan Hst.
  pose proof (lookup_fold_records_world0 ParseFloat rs c) as H.
  destruct (observations ParseFloat c rs) as [|r0 obs]; [destruct Hin|].
  destruct H as (v0 & Hv0 & H). rewrite Hst in H.
  destruct (fold_left_entry_total ParseFloat obs (new_stats (fst r0) (snd r0) v0))
    as (stats' & Hf & Ht & _).
  rewrite Hf in H. injection H as ->. cbn in Ht.
  assert (Htotal : TotalValue stats' = Float64.NaN).
  { rewrite Ht. apply fold_left_add_In_nan. destruct Hin as [<-|Hin].
    - left. congruence.
    - right. apply list_elem_of_In, list_elem_of_omap. exists r.
      split; [apply list_elem_of_In; exact Hin | exact Hnan]. }
  split; [exact Htotal|].
  exists (set_average stats'). unfold finalize. rewrite lookup_fmap, Hst.
  split; [reflexivity|]. cbn. rewrite Htotal. reflexivity.
Qed.

(** X5. A document changes the entries of the currencies it names and
    no other, and it never removes an entry. *)
Theorem analyzeData_touches_named_currencies (valCurs : ValCurs) (w : world) :
  (forall c : string,
      (forall v, In v (Valutes valCurs) -> Valute.CharCode v <> c) ->
      globalStats (analyzeData ParseFloat valCurs w) !! c = globalStats w !! c)
  /\ (forall c : string,
        is_Some (globalStats w !! c) ->
        is_Some (globalStats (analyzeData ParseFloat valCurs w) !! c)).
Proof.
  split.
  - intros c Hc. rewrite analyzeData_records, fold_records_lookup.
    assert (Hnone : observations ParseFloat c
                      ((fun v => (Date valCurs, v)) <$> Valutes valCurs) = []).
    { induction (Valutes valCurs) as [|v l IH]; [reflexivity|].
      cbn. unfold observations in *. cbn [List.filter].
      unfold of_currency at 1. cbn [snd].
      rewrite bool_decide_eq_false_2 by (apply Hc; left; reflexivity).
      cbn [andb]. apply IH. intros v' Hin. apply Hc. right. exact Hin. }
    rewrite Hnone. reflexivity.
  - intros c Hsome. rewrite analyzeData_records, fold_records_lookup.
    apply fold_left_entry_is_Some; [apply observations_parseable | left; exact Hsome].
Qed.

(** What a sequence of records adds to the output. *)
Lemma fold_records_stdout (rs : list (string * Valute)) (w : world) :
  stdout (fold_records ParseFloat rs w) =
    (stdout w ++ convert_errors ParseFloat rs)%list.
Proof.
  revert w. induction rs as [|r rs IH]; intros w.
  - cbn. rewrite app_nil_r. reflexivity.
  - cbn [fold_records fold_left].
    change (fold_left _ rs ?w0) with (fold_records ParseFloat rs w0).
    rewrite IH. unfold convert_errors. cbn [List.filter].
    unfold parseable at 2, parsed, analyzeValute.
    destruct (ParseFloat (valueStr (snd r))) as [v|].
    + cbn [negb]. destruct (globalStats w !! _); reflexivity.
    + cbn [negb stdout fmap list_fmap]. rewrite <- app_assoc. reflexivity.
Qed.

(** X6. A document adds to the output one line for each of its records
    whose text does not parse, in the order of the records, and
    nothing else. *)
Theorem analyzeData_prints_skipped_records (valCurs : ValCurs) (w : world) :
  stdout (analyzeData ParseFloat valCurs w) =
    (stdout w
     ++ convert_errors ParseFloat
          ((fun v => (Date valCurs, v)) <$> Valutes valCurs))%list.
Proof. rewrite analyzeData_records. apply fold_records_stdout. Qed.

(** X7. The folds never write the average: after any sequence of
    records an entry has the average it had before, and the zero value
    if it was made on the way.  Only the closing loop sets it. *)
Theorem average_untouched_by_folds (rs : list (string * Valute)) (w : world)
  (c : string) (stats : CurrencyStats) :
  globalStats (fold_records ParseFloat rs w) !! c = Some stats ->
  Average stats =
    match globalStats w !! c with
    | Some stats0 => Average stats0
    | None => Float64.zero
    end.
Proof.
  rewrite fold_records_lookup.
  pose proof (observations_parseable ParseFloat c rs) as Hall.
  destruct (globalStats w !! c) as [stats0|].
  - destruct (fold_left_entry_total ParseFloat (observations ParseFloat c rs) stats0)
      as (stats' & -> & _ & Ha).
    intros H. injection H as <-. exact Ha.
  - destruct (observations ParseFloat c rs) as [|r0 obs]; [discriminate|].
    apply Forall_cons in Hall as [[v0 Hv0] _]. cbn [fold_left].
    rewrite (fold_entry_None _ _ _ Hv0).
    destruct (fold_left_entry_total ParseFloat obs (new_stats (fst r0) (snd r0) v0))
      as (stats' & -> & _ & Ha).
    intros H. injection H as <-. exact Ha.
Qed.

(** X8. How the records are grouped in documents does not matter: two
    lists of documents with the same dated records in the same order
    leave the same table and the same output. *)
Theorem run_depends_on_records_only (docs1 docs2 : list ValCurs) (w : world) :
  records docs1 = records docs2 ->
  run ParseFloat docs1 w = run ParseFloat docs2 w.
Proof. intros H. rewrite !run_records, H. reflexivity. Qed.

(** ** The loop over the days and the closing loop *)

Lemma main_loop_cons (d : day) (days : list day) (w : world) :
  main_loop ParseFloat (d :: days) w =
    main_loop ParseFloat days (main_day ParseFloat d w).
Proof. reflexivity. Qed.

Lemma run_stats (docs : list ValCurs) (w1 w2 : world) :
  globalStats w1 = globalStats w2 ->
  globalStats (run ParseFloat docs w1) = globalStats (run ParseFloat docs w2).
Proof. intros H. rewrite !run_records. apply fold_records_stats. exact H. Qed.

Lemma main_loop_stats (days : list day) (w : world) :
  globalStats (main_loop ParseFloat days w) =
    globalStats (run ParseFloat (fetched days) w).
Proof.
  revert w. induction days as [|d days IH]; intros w; [reflexivity|].
  rewrite main_loop_cons, IH. destruct d as [err|dateStr err|valCurs];
    cbn [fetched omap list_omap main_day]; try reflexivity;
    apply run_stats; reflexivity.
Qed.

Lemma main_loop_stdout (days : list day) (w : world) :
  stdout (main_loop ParseFloat days w) =
    (stdout w ++ (days ≫= day_lines ParseFloat))%list.
Proof.
  revert w. induction days as [|d days IH]; intros w.
  - cbn. rewrite app_nil_r. reflexivity.
  - rewrite main_loop_cons, IH, bind_cons, app_assoc. f_equal.
    destruct d as [err|dateStr err|valCurs]; cbn [main_day day_lines stdout];
      try reflexivity.
    rewrite analyzeData_records. apply fold_records_stdout.
Qed.

Lemma day_lines_not_stats (days : list day) :
  List.filter is_stats_line (days ≫= day_lines ParseFloat) = [].
Proof.
  induction days as [|d days IH]; [reflexivity|].
  rewrite bind_cons, List.filter_app, IH, app_nil_r.
  destruct d as [err|dateStr err|valCurs]; cbn [day_lines]; try reflexivity.
  unfold convert_errors.
  generalize (List.filter (fun r => negb (parseable ParseFloat r))
                ((fun v => (Date valCurs, v)) <$> Valutes valCurs)).
  intros l. induction l as [|r l IHl]; [reflexivity | exact IHl].
Qed.

Lemma report_all_stats (m : gmap string CurrencyStats) :
  List.filter is_stats_line (report m) = report m.
Proof.
  unfold report. induction (map_to_list (finalize m)) as [|kv l IH];
    [reflexivity|]. cbn. f_equal. exact IH.
Qed.

(** X9. A day whose fetch or whose parse failed changes no statistics:
    the table after the loop over the days is the table of the
    documents that came, and the loop prints one line for each failed
    day and one for each record that does not parse, in order. *)
Theorem failed_days_change_no_statistics (days : list day) :
  globalStats (main ParseFloat days) =
    finalize (globalStats (run ParseFloat (fetched days) world0))
  /\ forall w : world,
       globalStats (main_loop ParseFloat days w) =
         globalStats (run ParseFloat (fetched days) w)
       /\ stdout (main_loop ParseFloat days w) =
            (stdout w ++ (days ≫= day_lines ParseFloat))%list.
Proof.
  split.
  - unfold main. cbn [globalStats].
    change (fold_left _ days world0) with (main_loop ParseFloat days world0).
    rewrite main_loop_stats. reflexivity.
  - intros w. split; [apply main_loop_stats | apply main_loop_stdout].
Qed.

(** X10. When no record of any document parses, and so when every day
    failed, the run ends with an empty table and prints no line of
    statistics. *)
Theorem run_without_values_prints_no_statistics (days : list day) :
  (forall r, In r (records (fetched days)) -> parseable ParseFloat r = false) ->
  globalStats (main ParseFloat days) = ∅
  /\ List.filter is_stats_line (stdout (main ParseFloat days)) = [].
Proof.
  intros Hnone.
  assert (Hempty : globalStats (main_loop ParseFloat days world0) = ∅).
  { rewrite main_loop_stats, run_records. apply map_eq. intros c.
    rewrite fold_records_lookup, lookup_empty. cbn [world0 globalStats].
    rewrite lookup_empty.
    assert (Hobs : observations ParseFloat c (records (fetched days)) = []).
    { unfold observations.
      induction (records (fetched days)) as [|r l IH]; [reflexivity|].
      cbn [List.filter]. rewrite (Hnone r) by (left; reflexivity).
      rewrite andb_false_r. apply IH. intros r' Hin. apply Hnone. right. exact Hin. }
    rewrite Hobs. reflexivity. }
  unfold main.
  change (fold_left _ days world0) with (main_loop ParseFloat days world0).
  cbn [globalStats stdout]. rewrite Hempty. split.
  - unfold finalize. apply fmap_empty.
  - rewrite List.filter_app, main_loop_stdout, List.filter_app.
    cbn [world0 stdout List.filter]. rewrite day_lines_not_stats.
    unfold report, finalize. rewrite fmap_empty, map_to_list_empty. reflexivity.
Qed.

(** X11. The closing loop prints one line for each currency of the
    table and no other: the lines of statistics of a run are as many
    as the entries, each entry has its line, with the average in it,
    and each line is the line of an entry. *)
Theorem main_prints_one_line_per_currency (days : list day) :
  List.filter is_stats_line (stdout (main ParseFloat days)) =
    report (globalStats (main_loop ParseFloat days world0))
  /\ length (report (globalStats (main_loop ParseFloat days world0))) =
       size (globalStats (main ParseFloat days))
  /\ (forall c stats,
        globalStats (main ParseFloat days) !! c = Some stats ->
        In (stats_line stats)
           (report (globalStats (main_loop ParseFloat days world0))))
  /\ (forall e,
        In e (report (globalStats (main_loop ParseFloat days world0))) ->
        exists c stats,
          globalStats (main ParseFloat days) !! c = Some stats
          /\ e = stats_line stats).
Proof.
  unfold main.
  change (fold_left _ days world0) with (main_loop ParseFloat days world0).
  cbn [globalStats stdout].
  set (m := globalStats (main_loop ParseFloat days world0)).
  split; [|split; [|split]].
  - rewrite List.filter_app, main_loop_stdout, List.filter_app.
    cbn [world0 stdout List.filter]. rewrite day_lines_not_stats.
    apply report_all_stats.
  - unfold report. rewrite length_fmap. apply length_map_to_list.
  - intros c stats Hst. unfold report. apply in_map_iff.
    exists (c, stats). split; [reflexivity|].
    apply list_elem_of_In, elem_of_map_to_list. exact Hst.
  - intros e He. unfold report in He. apply in_map_iff in He.
    destruct He as ([c stats] & <- & Hin).
    apply list_elem_of_In, elem_of_map_to_list in Hin. eauto.
Qed.

Lemma second_copy_loop_forget (days : list day) (w : world) :
  second_copy_loop ParseFloat days (forget_world w) =
    forget_world (main_loop ParseFloat days w).
Proof.
  revert w. induction days as [|d days IH]; intros w; [reflexivity|].
  rewrite main_loop_cons, <- IH. unfold second_copy_loop. cbn [fold_left].
  f_equal. destruct d as [err|dateStr err|valCurs];
    cbn [second_copy_main_day main_day].
  - unfold forget_world. cbn. rewrite fmap_app. reflexivity.
  - unfold forget_world. cbn. rewrite fmap_app. reflexivity.
  - apply second_copy_analyzeData.
Qed.

Lemma filter_convert_error_forget (l : list event) :
  List.filter second_copy_is_convert_error (forget_event <$> l) =
    forget_event <$> List.filter is_convert_error l.
Proof.
  induction l as [|e l IH]; [reflexivity|].
  destruct e; cbn; rewrite IH; reflexivity.
Qed.

Lemma convert_errors_app (rs1 rs2 : list (string * Valute)) :
  convert_errors ParseFloat (rs1 ++ rs2) =
    (convert_errors ParseFloat rs1 ++ convert_errors ParseFloat rs2)%list.
Proof. unfold convert_errors. rewrite List.filter_app, fmap_app. reflexivity. Qed.

Lemma convert_errors_all (rs : list (string * Valute)) :
  List.filter is_convert_error (convert_errors ParseFloat rs) =
    convert_errors ParseFloat rs.
Proof.
  unfold convert_errors.
  generalize (List.filter (fun r => negb (parseable ParseFloat r)) rs).
  intros l. induction l as [|r l IH]; [reflexivity|]. cbn. f_equal. exact IH.
Qed.

(** The lines of skipped records among the lines of the days. *)
Lemma day_lines_convert_errors (days : list day) :
  List.filter is_convert_error (days ≫= day_lines ParseFloat) =
    convert_errors ParseFloat (records (fetched days)).
Proof.
  induction days as [|d days IH]; [reflexivity|].
  rewrite bind_cons, List.filter_app, IH.
  destruct d as [err|dateStr err|valCurs]; cbn [day_lines fetched omap list_omap];
    try reflexivity.
  unfold records. rewrite bind_cons, convert_errors_app, convert_errors_all.
  reflexivity.
Qed.

(** X12. Fed the same documents, the second copy of the program keeps
    the statistics of the first, less the codes and the nominal: its
    table is that of the first copy with these fields forgotten, after
    the loop over the days and after the closing loop; it prints the
    same lines for the records that do not parse, in the same order;
    and the lines of its closing loop are those of the first copy
    without these fields, in some order.  The lines of the days that
    failed are each copy's own and are left out. *)
Theorem second_copy_follows_first (days1 days2 : list day) :
  fetched days1 = fetched days2 ->
  SecondCopy.globalStats
    (second_copy_loop ParseFloat days2 second_copy_world0)
  = forget <$> globalStats (main_loop ParseFloat days1 world0)
  /\ SecondCopy.globalStats (second_copy_main ParseFloat days2)
     = forget <$> globalStats (main ParseFloat days1)
  /\ List.filter second_copy_is_convert_error
       (SecondCopy.stdout
          (second_copy_loop ParseFloat days2 second_copy_world0))
     = forget_event
         <$> List.filter is_convert_error
               (stdout (main_loop ParseFloat days1 world0))
  /\ Permutation
       (second_copy_report
          (SecondCopy.globalStats
             (second_copy_loop ParseFloat days2 second_copy_world0)))
       (forget_event <$> report (globalStats (main_loop ParseFloat days1 world0))).
Proof.
  intros Hdocs.
  assert (Htable : SecondCopy.globalStats
                     (second_copy_loop ParseFloat days2 second_copy_world0)
                   = forget <$> globalStats (main_loop ParseFloat days1 world0)).
  { rewrite second_copy_world0_forget, second_copy_loop_forget.
    unfold forget_world. cbn [SecondCopy.globalStats].
    rewrite !main_loop_stats, Hdocs. reflexivity. }
  split; [exact Htable|]. split; [|split].
  - unfold second_copy_main, main.
    change (fold_left _ days1 world0) with (main_loop ParseFloat days1 world0).
    change {| SecondCopy.globalStats := ∅; SecondCopy.stdout := [] |}
      with second_copy_world0.
    cbn [SecondCopy.globalStats globalStats].
    rewrite Htable. apply second_copy_finalize.
  - rewrite second_copy_world0_forget, second_copy_loop_forget.
    unfold forget_world. cbn [SecondCopy.stdout].
    rewrite filter_convert_error_forget, !main_loop_stdout.
    cbn [world0 stdout app]. rewrite !day_lines_convert_errors, Hdocs.
    reflexivity.
  - rewrite Htable, second_copy_report_forget. reflexivity.
Qed.

End MoreProperties.

(** * The date of the request *)

Lemma decimal_digits_last (fuel : nat) (u : Z) (acc : string) :
  u < 10 -> time.decimal_digits (S fuel) u acc = String (time.digit u) acc.
Proof.
  intros Hu. cbn [time.decimal_digits].
  destruct (Z.ltb_spec u 10); [reflexivity | lia].
Qed.

Lemma decimal_digits_more (fuel : nat) (u : Z) (acc : string) :
  10 <= u ->
  time.decimal_digits (S fuel) u acc =
    time.decimal_digits fuel (u / 10) (String (time.digit (u mod 10)) acc).
Proof.
  intros Hu. cbn [time.decimal_digits].
  destruct (Z.ltb_spec u 10); [lia | reflexivity].
Qed.

Lemma appendInt_nonneg (x width : Z) :
  0 <= x ->
  time.appendInt x width =
    time.zeros (Z.to_nat (width - Z.of_nat (String.length (time.decimal x))))
    ++ time.decimal x.
Proof.
  intros Hx. unfold time.appendInt. rewrite Z.abs_eq by exact Hx.
  destruct (Z.ltb_spec x 0); [lia | reflexivity].
Qed.

Lemma appendInt_two_digits (x : Z) :
  0 <= x < 100 -> time.appendInt x 2 = time.two_digits x.
Proof.
  intros Hx. rewrite appendInt_nonneg by lia.
  unfold time.decimal, time.two_digits.
  destruct (Z.lt_ge_cases x 10) as [H1|H1].
  - rewrite decimal_digits_last by lia.
    rewrite Z.div_small, Z.mod_small by lia. reflexivity.
  - rewrite decimal_digits_more by lia.
    rewrite decimal_digits_last by (Z.div_mod_to_equations; lia). reflexivity.
Qed.

Lemma appendInt_four_digits (x : Z) :
  0 <= x < 10000 -> time.appendInt x 4 = time.four_digits x.
Proof.
  intros Hx. rewrite appendInt_nonneg by lia.
  unfold time.decimal, time.four_digits.
  assert (H100 : x / 10 / 10 = x / 100) by (Z.div_mod_to_equations; lia).
  assert (H1000 : x / 100 / 10 = x / 1000) by (Z.div_mod_to_equations; lia).
  destruct (Z.lt_ge_cases x 10) as [H1|H1].
  { rewrite decimal_digits_last by lia.
    replace (x / 1000) with 0 by (Z.div_mod_to_equations; lia).
    replace (x / 100) with 0 by (Z.div_mod_to_equations; lia).
    replace (x / 10) with 0 by (Z.div_mod_to_equations; lia).
    rewrite (Z.mod_small x) by lia. reflexivity. }
  rewrite decimal_digits_more by lia.
  destruct (Z.lt_ge_cases x 100) as [H2|H2].
  { rewrite decimal_digits_last by (Z.div_mod_to_equations; lia).
    replace (x / 1000) with 0 by (Z.div_mod_to_equations; lia).
    replace (x / 100) with 0 by (Z.div_mod_to_equations; lia).
    rewrite (Z.mod_small (x / 10)) by (Z.div_mod_to_equations; lia).
    reflexivity. }
  rewrite decimal_digits_more by (Z.div_mod_to_equations; lia). rewrite H100.
  destruct (Z.lt_ge_cases x 1000) as [H3|H3].
  { rewrite decimal_digits_last by (Z.div_mod_to_equations; lia).
    replace (x / 1000) with 0 by (Z.div_mod_to_equations; lia).
    rewrite (Z.mod_small (x / 100)) by (Z.div_mod_to_equations; lia).
    reflexivity. }
  rewrite decimal_digits_more by (Z.div_mod_to_equations; lia). rewrite H1000.
  rewrite decimal_digits_last by (Z.div_mod_to_equations; lia). reflexivity.
Qed.

Lemma digit_inj (a b : Z) :
  0 <= a < 10 -> 0 <= b < 10 -> time.digit a = time.digit b -> a = b.
Proof.
  intros Ha Hb H. unfold time.digit in H.
  apply (f_equal N_of_ascii) in H.
  rewrite !N_ascii_embedding in H by lia. lia.
Qed.

Lemma two_digits_inj (x y : Z) :
  0 <= x < 100 -> 0 <= y < 100 -> time.two_digits x = time.two_digits y -> x = y.
Proof.
  intros Hx Hy H. unfold time.two_digits in H. injection H as H1 H0.
  apply digit_inj in H1; [|Z.div_mod_to_equations; lia..].
  apply digit_inj in H0; [|Z.div_mod_to_equations; lia..].
  Z.div_mod_to_equations. lia.
Qed.

Lemma four_digits_inj (x y : Z) :
  0 <= x < 10000 -> 0 <= y < 10000 ->
  time.four_digits x = time.four_digits y -> x = y.
Proof.
  intros Hx Hy H. unfold time.four_digits in H. injection H as H3 H2 H1 H0.
  apply digit_inj in H3; [|Z.div_mod_to_equations; lia..].
  apply digit_inj in H2; [|Z.div_mod_to_equations; lia..].
  apply digit_inj in H1; [|Z.div_mod_to_equations; lia..].
  apply digit_inj in H0; [|Z.div_mod_to_equations; lia..].
  Z.div_mod_to_equations. lia.
Qed.

Lemma append_cancel_l (p x y : string) : p ++ x = p ++ y -> x = y.
Proof.
  induction p as [|c p IH]; cbn; intros H; [exact H|].
  injection H as H. apply IH. exact H.
Qed.

(** What the two layouts of the program make of a time. *)
Lemma Format_first_copy (t : time.Time) :
  time.Format "08/03/2024" t =
    Some ("08/" ++ time.appendInt (time.hour12 (time.Hour t)) 2
          ++ "/" ++ time.appendInt (time.Day t) 0
          ++ time.appendInt (time.Day t) 2
          ++ time.appendInt (time.Minute t) 0 ++ "").
Proof. reflexivity. Qed.

Lemma Format_second_copy (t : time.Time) :
  time.Format "02/01/2006" t =
    Some (time.appendInt (time.Day t) 2
          ++ "/" ++ time.appendInt (time.Month t) 2
          ++ "/" ++ time.appendInt (time.Year t) 4 ++ "").
Proof. reflexivity. Qed.

(** X13. The address the first copy asks for a day depends on the day
    of the month, the hour and the minute of the time only: its layout
    has no chunk for the month and none for the year, so the same day
    of another month, or of another year, gives the same address. *)
Theorem request_ignores_month_and_year (t1 t2 : time.Time) :
  time.Day t1 = time.Day t2 ->
  time.Hour t1 = time.Hour t2 ->
  time.Minute t1 = time.Minute t2 ->
  request_url t1 = request_url t2 /\ is_Some (request_url t1).
Proof.
  intros Hd Hh Hm. unfold request_url.
  rewrite !Format_first_copy, Hd, Hh, Hm. split; [reflexivity | eexists; reflexivity].
Qed.

(** X14. For a time of a year before 8080, the text the first copy
    puts in the address is not the date in the form day/month/year,
    the text the second copy puts there. *)
Theorem request_is_not_the_date (t : time.Time) :
  1 <= time.Day t <= 31 ->
  1 <= time.Month t <= 12 ->
  0 <= time.Year t < 8080 ->
  0 <= time.Hour t <= 23 ->
  request_url t <> second_copy_request_url t.
Proof.
  intros Hd Hm Hy Hh. unfold request_url, second_copy_request_url.
  rewrite Format_first_copy, Format_second_copy.
  rewrite (appendInt_two_digits (time.Day t)) by lia.
  rewrite (appendInt_two_digits (time.Month t)) by lia.
  rewrite (appendInt_four_digits (time.Year t)) by lia.
  rewrite (appendInt_two_digits (time.hour12 (time.Hour t))).
  2:{ unfold time.hour12. destruct (Z.rem_bound_pos (time.Hour t) 12); try lia.
      destruct (_ =? 0); lia. }
  unfold Sprintf_baseUrl. cbn [option_map]. intros H.
  apply (inj Some), append_cancel_l in H.
  unfold time.two_digits at 2 3 4 in H. cbn [append] in H.
  injection H as H1 H0 _ _ H.
  change "0"%char with (time.digit 0) in H1.
  change "8"%char with (time.digit 8) in H0.
  apply digit_inj in H1; [|Z.div_mod_to_equations; lia..].
  apply digit_inj in H0; [|Z.div_mod_to_equations; lia..].
  assert (Hday : time.Day t = 8) by (Z.div_mod_to_equations; lia).
  rewrite Hday in H. unfold time.four_digits in H.
  change (time.appendInt 8 0) with "8" in H.
  change (time.two_digits 8) with "08" in H. cbn [append] in H.
  injection H as H3 H2 H1' _.
  change "8"%char with (time.digit 8) in H3, H1'.
  change "0"%char with (time.digit 0) in H2.
  apply digit_inj in H3; [|Z.div_mod_to_equations; lia..].
  apply digit_inj in H2; [|Z.div_mod_to_equations; lia..].
  apply digit_inj in H1'; [|Z.div_mod_to_equations; lia..].
  Z.div_mod_to_equations. lia.
Qed.

(** X15. The address the second copy asks for a day holds the date as
    two digits of the day, two of the month and four of the year, with
    strokes between, and so names the date: two times with the same
    address have the same day, month and year (for years 0 to 9999). *)
Theorem second_copy_request_names_the_date (t1 t2 : time.Time) :
  1 <= time.Day t1 <= 31 -> 1 <= time.Month t1 <= 12 ->
  0 <= time.Year t1 <= 9999 ->
  1 <= time.Day t2 <= 31 -> 1 <= time.Month t2 <= 12 ->
  0 <= time.Year t2 <= 9999 ->
  second_copy_request_url t1 =
    Some ("http://www.cbr.ru/scripts/XML_daily_eng.asp?date_req="
          ++ time.two_digits (time.Day t1) ++ "/"
          ++ time.two_digits (time.Month t1) ++ "/"
          ++ time.four_digits (time.Year t1))
  /\ (second_copy_request_url t1 = second_copy_request_url t2 ->
      time.Day t1 = time.Day t2 /\ time.Month t1 = time.Month t2
      /\ time.Year t1 = time.Year t2).
Proof.
  intros Hd1 Hm1 Hy1 Hd2 Hm2 Hy2. unfold second_copy_request_url.
  rewrite !Format_second_copy.
  rewrite (appendInt_two_digits (time.Day t1)) by lia.
  rewrite (appendInt_two_digits (time.Month t1)) by lia.
  rewrite (appendInt_four_digits (time.Year t1)) by lia.
  rewrite (appendInt_two_digits (time.Day t2)) by lia.
  rewrite (appendInt_two_digits (time.Month t2)) by lia.
  rewrite (appendInt_four_digits (time.Year t2)) by lia.
  unfold Sprintf_baseUrl. cbn [option_map]. split.
  - reflexivity.
  - intros H. apply (inj Some), append_cancel_l in H.
    assert (Hparts : time.two_digits (time.Day t1) = time.two_digits (time.Day t2)
                     /\ time.two_digits (time.Month t1)
                        = time.two_digits (time.Month t2)
                     /\ time.four_digits (time.Year t1)
                        = time.four_digits (time.Year t2)).
    { unfold time.two_digits, time.four_digits in *. cbn [append] in H.
      injection H as -> -> -> -> -> -> -> ->. auto. }
    destruct Hparts as (Hday & Hmonth & Hyear).
    apply two_digits_inj in Hday; [|lia..].
    apply two_digits_inj in Hmonth; [|lia..].
    apply four_digits_inj in Hyear; [|lia..]. auto.
Qed.

(** * Further scenarios *)

(** The three days: 75.5 + 76.2 + 74.0, in this order. *)
Lemma total_is_sum_in_order_witness :
  exists stats v0 vs,
    globalStats (fold_records strconv.ParseFloat three_days world0) !! "USD"
    = Some stats
    /\ values strconv.ParseFloat "USD" three_days = v0 :: vs
    /\ TotalValue stats = fold_left Float64.add vs v0.
Proof.
  eexists.
  destruct (total_is_sum_in_order strconv.ParseFloat three_days "USD" _
              ltac:(vm_compute; reflexivity)) as (v0 & vs & Hv & Ht).
  exists v0, vs. split; [vm_compute; reflexivity|]. split; [exact Hv | exact Ht].
Defined.

(** The maximum 76.2 on the second and on the third day: the date is
    the second. *)
Lemma extreme_dates_are_first_occurrences_witness :
  exists stats,
    globalStats (fold_records strconv.ParseFloat tie_days world0) !! "USD"
    = Some stats
    /\ MaxDate stats = "2024-01-02"
    /\ exists before r after,
         observations strconv.ParseFloat "USD" tie_days
         = (before ++ r :: after)%list
         /\ parsed strconv.ParseFloat r = Some (MaxValue stats)
         /\ fst r = MaxDate stats
         /\ (forall r' v', In r' before ->
                            parsed strconv.ParseFloat r' = Some v' ->
                            Float64.ltb v' (MaxValue stats) = true)
         /\ (forall r' v', In r' after ->
                            parsed strconv.ParseFloat r' = Some v' ->
                            Float64.leb v' (MaxValue stats) = true).
Proof.
  eexists. split; [vm_compute; reflexivity|]. split; [reflexivity|].
  apply (extreme_dates_are_first_occurrences strconv.ParseFloat tie_days "USD").
  - intros r v Hin Hv. vm_compute in Hin.
    destruct Hin as [<-|[<-|[<-|[<-|[]]]]]; vm_compute in Hv; injection Hv as <-;
      reflexivity.
  - vm_compute. reflexivity.
Defined.

(** A NaN on the first day, 75,5 on the second. *)
Lemma nan_first_value_fixes_extremes_witness :
  exists stats,
    globalStats (fold_records strconv.ParseFloat nan_days world0) !! "USD"
    = Some stats
    /\ MaxValue stats = Float64.NaN /\ MinValue stats = Float64.NaN
    /\ MaxDate stats = "2024-01-01" /\ MinDate stats = "2024-01-01".
Proof.
  eexists. split; [vm_compute; reflexivity|].
  apply (nan_first_value_fixes_extremes strconv.ParseFloat nan_days "USD"
           ("2024-01-01", usd "NaN") [("2024-01-02", usd "75,5")]);
    vm_compute; reflexivity.
Defined.

(** 75,5 on the first day, a NaN on the second. *)
Lemma nan_value_makes_average_nan_witness :
  exists stats,
    globalStats
      (fold_records strconv.ParseFloat
         [("2024-01-01", usd "75,5"); ("2024-01-02", usd "NaN")] world0)
      !! "USD" = Some stats
    /\ TotalValue stats = Float64.NaN.
Proof.
  eexists. split; [vm_compute; reflexivity|].
  apply (nan_value_makes_average_nan strconv.ParseFloat
           [("2024-01-01", usd "75,5"); ("2024-01-02", usd "NaN")] "USD"
           ("2024-01-02", usd "NaN")).
  - vm_compute. right. left. reflexivity.
  - vm_compute. reflexivity.
  - vm_compute. reflexivity.
Defined.

(** A document of dollars leaves the euro as it is. *)
Lemma analyzeData_touches_named_currencies_witness :
  globalStats
    (analyzeData strconv.ParseFloat
       {| Date := "2024-01-02"; Valutes := [usd "75,5"; usd "76,2"] |}
       (analyzeValute strconv.ParseFloat "2024-01-01" (eur "81,3") world0))
    !! "EUR"
  = globalStats
      (analyzeValute strconv.ParseFloat "2024-01-01" (eur "81,3") world0)
      !! "EUR".
Proof.
  apply (proj1 (analyzeData_touches_named_currencies strconv.ParseFloat
                  {| Date := "2024-01-02"; Valutes := [usd "75,5"; usd "76,2"] |}
                  (analyzeValute strconv.ParseFloat "2024-01-01" (eur "81,3")
                     world0))).
  intros v [<-|[<-|[]]]; discriminate.
Defined.

(** The average of the three days is still the zero value before the
    closing loop. *)
Lemma average_untouched_by_folds_witness :
  exists stats,
    globalStats (fold_records strconv.ParseFloat three_days world0) !! "USD"
    = Some stats
    /\ Average stats = Float64.zero.
Proof.
  eexists. split; [vm_compute; reflexivity|].
  apply (average_untouched_by_folds strconv.ParseFloat three_days world0 "USD").
  vm_compute. reflexivity.
Defined.

(** One document of two records, or two documents of one. *)
Lemma run_depends_on_records_only_witness :
  run strconv.ParseFloat
    [{| Date := "2024-01-01"; Valutes := [usd "75,5"; eur "81,3"] |}] world0
  = run strconv.ParseFloat
      [{| Date := "2024-01-01"; Valutes := [usd "75,5"] |};
       {| Date := "2024-01-01"; Valutes := [eur "81,3"] |}] world0.
Proof.
  apply (run_depends_on_records_only strconv.ParseFloat). reflexivity.
Defined.

(** A day that did not come and a day with one text that is no
    number. *)
Lemma run_without_values_prints_no_statistics_witness :
  globalStats
    (main strconv.ParseFloat
       [FetchFailed "timeout";
        Fetched {| Date := "2024-01-02"; Valutes := [eur "abc"] |}]) = ∅.
Proof.
  apply (run_without_values_prints_no_statistics strconv.ParseFloat
           [FetchFailed "timeout";
            Fetched {| Date := "2024-01-02"; Valutes := [eur "abc"] |}]).
  intros r [<-|[]]. vm_compute. reflexivity.
Defined.

(** The same document on the second day, after a day whose document
    did not parse; each copy prints that day in its own layout. *)
Lemma second_copy_follows_first_witness :
  SecondCopy.globalStats
    (second_copy_main strconv.ParseFloat
       [ParseFailed
          (default "" (time.Format "02/01/2006" (sample_time 2024 1 15 10 30)))
          "EOF";
        Fetched {| Date := "16.01.2024"; Valutes := [usd "75,5"; eur "abc"] |}])
  = forget
      <$> globalStats
            (main strconv.ParseFloat
               [ParseFailed
                  (default ""
                     (time.Format "08/03/2024" (sample_time 2024 1 15 10 30)))
                  "EOF";
                Fetched {| Date := "16.01.2024";
                           Valutes := [usd "75,5"; eur "abc"] |}]).
Proof.
  apply (second_copy_follows_first strconv.ParseFloat). reflexivity.
Defined.

(** The 15th of January 2024 and the 15th of December 2023, both at
    10:30. *)
Lemma request_ignores_month_and_year_witness :
  request_url (sample_time 2024 1 15 10 30)
  = request_url (sample_time 2023 12 15 10 30).
Proof.
  apply (request_ignores_month_and_year (sample_time 2024 1 15 10 30)
           (sample_time 2023 12 15 10 30)); reflexivity.
Defined.

(** The 8th of March 2024 at 08:03. *)
Lemma request_is_not_the_date_witness :
  request_url (sample_time 2024 3 8 8 3)
  <> second_copy_request_url (sample_time 2024 3 8 8 3).
Proof.
  apply (request_is_not_the_date (sample_time 2024 3 8 8 3)); cbn; lia.
Defined.

(** The 15th of January 2024. *)
Lemma second_copy_request_names_the_date_witness :
  second_copy_request_url (sample_time 2024 1 15 10 30)
  = Some "http://www.cbr.ru/scripts/XML_daily_eng.asp?date_req=15/01/2024".
Proof.
  apply (second_copy_request_names_the_date (sample_time 2024 1 15 10 30)
           (sample_time 2024 1 15 10 30)); cbn; lia.
Defined.

(** * Texts with a foreign byte *)

Ltac by_bytes c :=
  destruct c as [[] [] [] [] [] [] [] []]; vm_compute; congruence.

Lemma foreign_underscore (c : ascii) :
  (strconv.byte c =? 95) = true -> foreign c = false.
Proof. by_bytes c. Qed.

Lemma foreign_period (c : ascii) :
  (strconv.byte c =? 46) = true -> foreign c = false.
Proof. by_bytes c. Qed.

Lemma foreign_digit (c : ascii) : strconv.is_digit c = true -> foreign c = false.
Proof. by_bytes c. Qed.

Lemma foreign_hex_letter (c : ascii) :
  strconv.is_hex_letter c = true -> foreign c = false.
Proof. by_bytes c. Qed.

Lemma foreign_sign (c : ascii) :
  (strconv.byte c =? 43) || (strconv.byte c =? 45) = true -> foreign c = false.
Proof. by_bytes c. Qed.

Lemma foreign_zero (c : ascii) :
  (strconv.byte c =? 48) = true -> foreign c = false.
Proof. by_bytes c. Qed.

Lemma foreign_x (c : ascii) : (strconv.lower c =? 120) = true -> foreign c = false.
Proof. by_bytes c. Qed.

Lemma foreign_exponent_letter (c : ascii) (hex : bool) :
  (strconv.lower c =? (if hex then 112 else 101)) = true -> foreign c = false.
Proof. destruct hex; by_bytes c. Qed.

Lemma foreign_false_iff (c : ascii) :
  foreign c = false <->
  (48 <= strconv.byte c <= 57 \/ 65 <= strconv.byte c <= 90
   \/ 97 <= strconv.byte c <= 122
   \/ strconv.byte c = 43 \/ strconv.byte c = 45 \/ strconv.byte c = 46
   \/ strconv.byte c = 95 \/ strconv.byte c = 44).
Proof.
  unfold foreign. cbv zeta.
  rewrite negb_false_iff, !orb_true_iff, !andb_true_iff, !Z.leb_le, !Z.eqb_eq.
  tauto.
Qed.

(** A text that is all of a common prefix with a lower-case word has
    letters only. *)
Lemma commonPrefixLen_all_letters (s p : string) :
  (forall q, In q (list_ascii_of_string p) -> 97 <= strconv.byte q <= 122) ->
  strconv.commonPrefixLenIgnoreCase s p = String.length s ->
  has_foreign s = false.
Proof.
  revert p. induction s as [|c s IH]; intros p Hp Hn; [reflexivity|].
  destruct p as [|q p]; [discriminate|]. cbn in Hn.
  destruct (_ =? strconv.byte q) eqn:E; [|discriminate].
  injection Hn as Hn. cbn [has_foreign].
  rewrite (IH p) by (try assumption; intros q' Hq'; apply Hp; right; exact Hq').
  rewrite orb_false_r. apply foreign_false_iff.
  specialize (Hp q (or_introl eq_refl)). apply Z.eqb_eq in E.
  unfold strconv.is_upper in E.
  destruct ((65 <=? strconv.byte c) && (strconv.byte c <=? 90)) eqn:Eu.
  - apply andb_true_iff in Eu as [E1 E2]. apply Z.leb_le in E1, E2. lia.
  - lia.
Qed.

Lemma special_inf_all_letters (s : string) (sign : Z) (nsign : nat)
  (f : float64) (n : nat) :
  strconv.special_inf s sign nsign = Some (f, n) ->
  n = (nsign + String.length s)%nat ->
  has_foreign s = false.
Proof.
  unfold strconv.special_inf. intros H Hn.
  pose proof (commonPrefixLen_le s "infinity") as Hle.
  apply (commonPrefixLen_all_letters s "infinity").
  { intros q Hq. cbn in Hq.
    repeat (destruct Hq as [<-|Hq]; [vm_compute; split; discriminate|]).
    destruct Hq. }
  destruct ((3 <? _)%nat && (_ <? 8)%nat) eqn:E.
  - cbn in H. injection H as _ <-.
    apply andb_true_iff in E as [E _]. apply Nat.ltb_lt in E. lia.
  - destruct (_ || _); [|discriminate]. injection H as _ <-. lia.
Qed.

Lemma special_all_letters (s : string) (f : float64) :
  strconv.special s = Some (f, String.length s) -> has_foreign s = false.
Proof.
  destruct s as [|c s]; [reflexivity|]. unfold strconv.special.
  destruct ((strconv.byte c =? 43) || (strconv.byte c =? 45)) eqn:Esign.
  - intros H. apply special_inf_all_letters in H; [|reflexivity].
    cbn [has_foreign]. rewrite (foreign_sign c Esign), H. reflexivity.
  - destruct ((strconv.byte c =? 105) || (strconv.byte c =? 73)).
    + intros H. apply special_inf_all_letters in H; [exact H | reflexivity].
    + destruct ((strconv.byte c =? 110) || (strconv.byte c =? 78));
        [|discriminate].
      destruct (_ =? 3)%nat eqn:E3; [|discriminate].
      intros H. apply Nat.eqb_eq in E3.
      assert (Hn : 3%nat = String.length (String c s)) by congruence.
      apply (commonPrefixLen_all_letters _ "nan"); [|congruence].
      intros q Hq. cbn in Hq.
      repeat (destruct Hq as [<-|Hq]; [vm_compute; split; discriminate|]).
      destruct Hq.
Qed.

Lemma read_digits_foreign (base : Z) (s : string) (st st' : strconv.digits)
  (s' : string) :
  strconv.read_digits base st s = (st', s') -> has_foreign s = has_foreign s'.
Proof.
  revert st. induction s as [|c s IH]; intros st H; cbn in H.
  - injection H as _ <-. reflexivity.
  - destruct (strconv.byte c =? 95) eqn:E95.
    { apply IH in H. cbn [has_foreign]. rewrite (foreign_underscore c E95). exact H. }
    destruct (strconv.byte c =? 46) eqn:E46.
    { destruct (strconv.sawdot st) eqn:Edot.
      - injection H as _ <-. reflexivity.
      - apply IH in H. cbn [has_foreign]. rewrite (foreign_period c E46). exact H. }
    destruct (strconv.is_digit c) eqn:Ed.
    { cbn [has_foreign]. rewrite (foreign_digit c Ed).
      destruct (_ && _); apply IH in H; exact H. }
    destruct ((base =? 16) && strconv.is_hex_letter c) eqn:Eh.
    { apply andb_true_iff in Eh as [_ Eh]. apply IH in H.
      cbn [has_foreign]. rewrite (foreign_hex_letter c Eh). exact H. }
    injection H as _ <-. reflexivity.
Qed.

Lemma read_exponent_foreign (s : string) (e e' : Z) (us us' : bool)
  (s' : string) :
  strconv.read_exponent e us s = (e', us', s') ->
  has_foreign s = has_foreign s'.
Proof.
  revert e us. induction s as [|c s IH]; intros e us H; cbn in H.
  - injection H as _ _ <-. reflexivity.
  - destruct (strconv.byte c =? 95) eqn:E95.
    { apply IH in H. cbn [has_foreign]. rewrite (foreign_underscore c E95). exact H. }
    destruct (strconv.is_digit c) eqn:Ed.
    { apply IH in H. cbn [has_foreign]. rewrite (foreign_digit c Ed). exact H. }
    injection H as _ _ <-. reflexivity.
Qed.

Lemma read_tail_foreign (all : string) (neg hex : bool) (st : strconv.digits)
  (s : string) (n : strconv.number) :
  strconv.read_tail all neg hex st s = Some n ->
  has_foreign s = has_foreign (strconv.rest n).
Proof.
  unfold strconv.read_tail.
  set (plain := if hex then None else _).
  assert (Hplain : plain = Some n -> has_foreign s = has_foreign (strconv.rest n)).
  { subst plain. destruct hex; [discriminate|]. intros H.
    apply finish_number_rest in H. congruence. }
  clearbody plain.
  destruct s as [|c s1]; [exact Hplain|].
  destruct (strconv.lower c =? _) eqn:Eexp; [|exact Hplain].
  destruct s1 as [|c1 s2]; [discriminate|].
  cbn [has_foreign]. rewrite (foreign_exponent_letter c hex Eexp). cbn [orb].
  clear Hplain.
  destruct ((strconv.byte c1 =? 43) || (strconv.byte c1 =? 45)) eqn:Esign.
  - destruct s2 as [|c3 s4]; [discriminate|].
    destruct (strconv.is_digit c3) eqn:Ed; [|discriminate].
    destruct (strconv.read_exponent _ _ _) as [[e us] unread] eqn:Ee.
    intros H. apply finish_number_rest in H. apply read_exponent_foreign in Ee.
    rewrite H, <- Ee, (foreign_sign c1 Esign). reflexivity.
  - destruct (strconv.is_digit c1) eqn:Ed; [|discriminate].
    destruct (strconv.read_exponent _ _ _) as [[e us] unread] eqn:Ee.
    intros H. apply finish_number_rest in H. apply read_exponent_foreign in Ee.
    rewrite H, <- Ee. reflexivity.
Qed.

Lemma readFloat_foreign (s : string) (n : strconv.number) :
  strconv.readFloat s = Some n ->
  has_foreign s = has_foreign (strconv.rest n).
Proof.
  destruct s as [|c s']; [discriminate|]. unfold strconv.readFloat.
  set (s1 := if (strconv.byte c =? 43) || (strconv.byte c =? 45)
             then s' else String c s').
  assert (H1 : has_foreign (String c s') = has_foreign s1).
  { subst s1. destruct (_ || _) eqn:Esign; [|reflexivity].
    cbn [has_foreign]. rewrite (foreign_sign c Esign). reflexivity. }
  rewrite H1. clearbody s1. clear H1.
  set (hex := match s1 with
              | String c0 (String c1 (String _ _)) =>
                  (strconv.byte c0 =? 48) && (strconv.lower c1 =? 120)
              | _ => false
              end).
  set (s2 := match s1 with
             | String _ (String _ s2) => if hex then s2 else s1
             | _ => s1
             end).
  assert (H2 : has_foreign s1 = has_foreign s2).
  { subst s2 hex. destruct s1 as [|c0 [|c1 [|c2 s2]]]; try reflexivity.
    destruct (_ && _) eqn:E; [|reflexivity].
    apply andb_true_iff in E as [E0 E1]. cbn [has_foreign].
    rewrite (foreign_zero c0 E0), (foreign_x c1 E1). reflexivity. }
  rewrite H2. clearbody s2. clearbody hex. clear H2.
  destruct (strconv.read_digits _ _ s2) as [st s3] eqn:Ed.
  apply read_digits_foreign in Ed.
  destruct (strconv.sawdigits st); [|discriminate].
  intros H. apply read_tail_foreign in H. congruence.
Qed.

Lemma ParseFloat_foreign (s : string) :
  has_foreign s = true -> strconv.ParseFloat s = None.
Proof.
  intros Hf. unfold strconv.ParseFloat.
  destruct (strconv.special s) as [[f n]|] eqn:Es.
  - destruct (n =? String.length s)%nat eqn:En; [|reflexivity].
    apply Nat.eqb_eq in En. subst n. apply special_all_letters in Es. congruence.
  - destruct (strconv.readFloat s) as [n|] eqn:Er; [|reflexivity].
    apply readFloat_foreign in Er.
    destruct (strconv.rest n); [cbn in Er; congruence | reflexivity].
Qed.

Lemma Replace_foreign (s : string) :
  has_foreign (strings.Replace s ","%char "."%char (-1)) = has_foreign s.
Proof.
  induction s as [|c s IH]; [reflexivity|].
  cbn [strings.Replace]. change (-1 =? 0) with false.
  change (if -1 <? 0 then -1 else -1 - 1) with (-1). cbn [negb].
  rewrite andb_true_r.
  destruct (Ascii.eqb_spec c ","%char) as [->|Hc]; cbn [has_foreign];
    rewrite IH; reflexivity.
Qed.

(** X16. A record whose text holds a byte that is neither a digit nor
    an ASCII letter nor one of [+ - . _ ,], be it a space between
    groups of digits or a blank or a line feed around the number, is
    skipped: the parser rejects the text, the table stays as it is and
    one line is printed. *)
Theorem foreign_byte_skipped (valute : Valute) :
  has_foreign (Valute.Value valute) = true ->
  strconv.ParseFloat (valueStr valute) = None
  /\ forall (date : string) (w : world),
       analyzeValute strconv.ParseFloat date valute w =
         {| globalStats := globalStats w;
            stdout := stdout w
                      ++ [ConvertError (Valute.CharCode valute)
                            (valueStr valute)] |}.
Proof.
  intros Hf.
  assert (Hnone : strconv.ParseFloat (valueStr valute) = None).
  { apply ParseFloat_foreign. unfold valueStr. rewrite Replace_foreign. exact Hf. }
  split; [exact Hnone|]. intros date w. apply analyzeValute_skip. exact Hnone.
Qed.

(** A space between the thousands and the hundreds. *)
Lemma foreign_byte_skipped_witness :
  strconv.ParseFloat (valueStr (usd "1 234,56")) = None.
Proof.
  apply (foreign_byte_skipped (usd "1 234,56")). reflexivity.
Defined.
